(** * Data Steward MCP server (src/server.ts): shallow embedding and properties

    The development follows the layout of [server.ts]:
    - [Js]: the fragment of JavaScript values and completions the server relies on;
    - [Uuid]: the shape of the identifiers produced by [randomUUID];
    - [Tools]: the tool catalog, the call-tool handler and [handleGetDDLTool];
    - [Server]: [sendNotification], [streamMessages], the catalog refresh
      timer, the session registry, [handleGetRequest] and [handlePostRequest];
    - [ToolsSpec], [UuidSpec], [NotifySpec], [RegistrySpec], [DispatchSpec]:
      what is proved about them;
    - [ToolsMore], [DispatchMore], [RunsMore]: further properties of the
      same functions. *)

From Stdlib Require Import ZArith String Ascii List Lia.
From stdpp Require Import base gmap strings list fin_maps pretty.

Open Scope string_scope.
Set Warnings "-register-all".

(** ** JavaScript values and completions *)
Module Js.

(** An [Error] object, as far as the server reads it: [err.name] and [err.message]. *)
Record Error := mkErr { err_name : string; err_message : string }.

(** [new Error(msg)] *)
Definition new_Error (msg : string) : Error := mkErr "Error" msg.
(** The [TypeError] the engine raises for [x.f()] when [x.f] is not callable,
    and for a property read on [undefined] or [null]. *)
Definition TypeError (msg : string) : Error := mkErr "TypeError" msg.

(** [String(err)], that is [Error.prototype.toString]. *)
Definition Error_toString (e : Error) : string :=
  if decide (err_name e = "") then err_message e
  else if decide (err_message e = "") then err_name e
  else err_name e +:+ ": " +:+ err_message e.

(** The completion of a statement or call: a value, or a thrown error.
    For an [async] function, [Throw] is the rejection of the returned promise
    as seen by a caller that awaits it. *)
Inductive completion (A : Type) : Type :=
| Normal (a : A)
| Throw (e : Error).
Arguments Normal {A} a.
Arguments Throw {A} e.

#[global] Instance completion_ret : MRet completion := fun A a => Normal a.
#[global] Instance completion_bind : MBind completion := fun A B f c =>
  match c with
  | Normal a => f a
  | Throw e => Throw e
  end.

Definition is_Normal {A} (c : completion A) : bool :=
  match c with Normal _ => true | Throw _ => false end.

(** Numbers: only zero-ness and integrality are observed by the server
    (ports, column lengths), so finite numbers are integers here. *)
Inductive jsnum := NaN | Num (z : Z).

(** JSON data as it arrives in [request.params.arguments], plus [undefined]. *)
Inductive jsval :=
| JUndefined
| JNull
| JBool (b : bool)
| JNumber (n : jsnum)
| JString (s : string)
| JArray (items : list jsval)
| JObject (fields : list (string * jsval)).

(** ToBoolean: what [!v], [v || w] and [if (v)] observe. *)
Definition truthy (v : jsval) : bool :=
  match v with
  | JUndefined | JNull => false
  | JBool b => b
  | JNumber NaN => false
  | JNumber (Num z) => negb (z =? 0)%Z
  | JString s => negb (String.eqb s "")
  | JArray _ | JObject _ => true
  end.

(** [a || b] *)
Definition or_else (a b : jsval) : jsval := if truthy a then a else b.

Fixpoint own_property (fields : list (string * jsval)) (k : string) : jsval :=
  match fields with
  | [] => JUndefined
  | (k', v) :: rest => if String.eqb k' k then v else own_property rest k
  end.

(** The property read [v.k] (also the read done by a destructuring pattern),
    for a name [k] that is no built-in member of strings, arrays or
    [Object.prototype]: every name the server reads from tool arguments is
    of that kind. Reading from [undefined] or [null] throws. *)
Definition get (v : jsval) (k : string) : completion jsval :=
  match v with
  | JUndefined | JNull =>
      Throw (TypeError ("Cannot read properties of undefined or null (reading '" +:+ k +:+ "')"))
  | JObject fields => Normal (own_property fields k)
  | _ => Normal JUndefined
  end.

Definition lower_ascii (c : ascii) : ascii :=
  let n := N_of_ascii c in
  if ((65 <=? n) && (n <=? 90))%N then ascii_of_N (n + 32) else c.

Fixpoint lower (s : string) : string :=
  match s with
  | EmptyString => EmptyString
  | String c rest => String (lower_ascii c) (lower rest)
  end.

(** The method call [v.toLowerCase()]: defined on strings only (ASCII case
    mapping; the two names it is compared with are ASCII). On any other
    value the member is missing or not callable and the call throws. *)
Definition toLowerCase (what : string) (v : jsval) : completion string :=
  match v with
  | JString s => Normal (lower s)
  | _ => Throw (TypeError (what +:+ ".toLowerCase is not a function"))
  end.

(** Whether [fields] has an own property named [k]. *)
Definition has_own (fields : list (string * jsval)) (k : string) : bool :=
  existsb (fun kv => String.eqb kv.1 k) fields.

(** Whether ToString succeeds on a value that came from JSON. A plain object
    is converted by [Object.prototype.toString] unless it has an own
    [toString]: that one is data, not a function, and so is any own
    [valueOf], while the inherited [valueOf] returns the object; no primitive
    is obtained and the conversion throws. An array is converted by joining
    the conversions of its elements. *)
Fixpoint convertible (v : jsval) : bool :=
  match v with
  | JObject fields => negb (has_own fields "toString")
  | JArray items => forallb convertible items
  | _ => true
  end.

Definition cannot_convert : Error :=
  TypeError "Cannot convert object to primitive value".

(** The double quote and the line feed, as one-character strings. *)
Definition dquote : string := String "034"%char EmptyString.
Definition nl : string := String "010"%char EmptyString.

End Js.
Export Js.

(** ** The tool catalog, the call-tool handler and the DDL tool *)
Module Tools.

Definition getDDLToolName : string := "get_database_table_ddl".

(** *** The list-tools handler installed by [setToolSchema] *)

Record Tool := mkTool { name : string; description : string; inputSchema : jsval }.

Definition string_schema : jsval := JObject [("type", JString "string")].

Definition getDDLTool : Tool :=
  {| name := getDDLToolName;
     description := "Retrieves the DDL for a specified table and generates a human-readable data dictionary using AI reasoning.";
     inputSchema := JObject
       [("type", JString "object");
        ("properties", JObject
           [("database_type", JObject [("type", JString "string");
                                       ("description", JString "Type of database (e.g., PostgreSQL)")]);
            ("connection_info", JObject
               [("type", JString "object");
                ("properties", JObject
                   [("host", string_schema);
                    ("port", JObject [("type", JString "number")]);
                    ("user", string_schema);
                    ("password", string_schema);
                    ("database", string_schema)]);
                ("required", JArray [JString "host"; JString "port"; JString "user";
                                     JString "password"; JString "database"])]);
            ("table_name", JObject [("type", JString "string");
                                    ("description", JString "Name of the table")])]);
        ("required", JArray [JString "database_type"; JString "connection_info";
                             JString "table_name"])] |}.

(** The handler body: [return { tools: [getDDLTool] }]. *)
Definition listTools : list Tool := [getDDLTool].

(** *** Results *)

Record TextContent := mkText { type : string; text : string }.
Record CallToolResult := mkResult { content : list TextContent }.

Definition text_of (s : string) : TextContent := {| type := "text"; text := s |}.

(** *** What the DDL tool needs from outside the file *)

Record DBConnectionInfo := mkConn
  { host : jsval; port : jsval; user : jsval; password : jsval; database : jsval }.

(** [process.env] after [dotenv.config()] *)
Record ProcessEnv := mkEnv
  { PGHOST : option string; PGPORT : option string; PGUSER : option string;
    PGPASSWORD : option string; PGDATABASE : option string }.

(** A row of [information_schema.columns] as selected by [ddlQuery];
    [character_maximum_length] is a number or [null]. *)
Record Row := mkRow
  { column_name : string; data_type : string; character_maximum_length : option Z }.

(** How the [try] block around the pg client ends. [PgThrows rows err]: an
    exception [err] landed in the [catch]; [rows] is what [ddlRows] held at
    that point, [[]] unless [client.end()] was the call that threw. *)
Inductive pg_outcome :=
| PgDone (rows : list Row)
| PgThrows (rows : list Row) (err : Error).

(** Built-ins and collaborators of [handleGetDDLTool]. *)
Record Externals := mkExt
  { env : ProcessEnv;
    (** [Number(process.env.X)] *)
    ToNumber : option string -> jsnum;
    (** the string ToString gives for a value that is not a string, when
        the conversion succeeds *)
    ToString : jsval -> string;
    (** [JSON.stringify(rows, null, 2)] *)
    JSON_stringify : list Row -> string;
    (** [new Client(conn)], [connect], [query(ddlQuery, [conn.database, table_name])], [end] *)
    pg : DBConnectionInfo -> jsval -> pg_outcome }.

Section Handlers.
Context (w : Externals).

Definition env_var (x : option string) : jsval :=
  match x with Some s => JString s | None => JUndefined end.

(** A value substituted into a template literal: the substitution throws
    when the value cannot be converted to a string. *)
Definition template (v : jsval) : completion string :=
  match v with
  | JString s => Normal s
  | _ => if convertible v then Normal (ToString w v) else Throw cannot_convert
  end.

(** The body of [for (const row of ddlRows)]. *)
Definition dictionary_line (dataDictionary : string) (row : Row) : string :=
  let dataDictionary := dataDictionary +:+ "- " +:+ column_name row +:+ ": " +:+ data_type row in
  let dataDictionary :=
    match character_maximum_length row with
    | Some z => if (z =? 0)%Z
                then dataDictionary
                else dataDictionary +:+ "(" +:+ pretty z +:+ ")"
    | None => dataDictionary
    end in
  dataDictionary +:+ nl.

Definition data_dictionary (table_name : jsval) (ddlRows : list Row) : completion string :=
  shown ← template table_name;
  let dataDictionary := "Table " +:+ dquote +:+ shown +:+ dquote +:+ " columns:" +:+ nl in
  if (length ddlRows =? 0)%nat
  then mret (dataDictionary +:+ "No columns found.")
  else mret (fold_left dictionary_line ddlRows dataDictionary).

(** The [conn] object: each field of [connection_info], or else the
    environment's. *)
Definition connection (connection_info : jsval) : completion DBConnectionInfo :=
  ci_host ← get connection_info "host";
  ci_port ← get connection_info "port";
  ci_user ← get connection_info "user";
  ci_password ← get connection_info "password";
  ci_database ← get connection_info "database";
  mret {| host := or_else ci_host (env_var (PGHOST (env w)));
          port := or_else ci_port (JNumber (ToNumber w (PGPORT (env w))));
          user := or_else ci_user (env_var (PGUSER (env w)));
          password := or_else ci_password (env_var (PGPASSWORD (env w)));
          database := or_else ci_database (env_var (PGDATABASE (env w))) |}.

(** [!conn.host || !conn.port || !conn.user || !conn.password || !conn.database] *)
Definition incomplete (conn : DBConnectionInfo) : bool :=
  negb (truthy (host conn)) || negb (truthy (port conn)) || negb (truthy (user conn))
  || negb (truthy (password conn)) || negb (truthy (database conn)).

(** [err.message || String(err)] *)
Definition describe (err : Error) : jsval :=
  or_else (JString (err_message err)) (JString (Error_toString err)).

Definition handleGetDDLTool (args : jsval) : completion CallToolResult :=
  database_type ← get args "database_type";
  connection_info ← get args "connection_info";
  table_name ← get args "table_name";
  if negb (truthy database_type) || negb (truthy connection_info) || negb (truthy table_name)
  then mret {| content :=
    [text_of "Missing required parameters: database_type, connection_info, or table_name."] |}
  else
  lc ← toLowerCase "database_type" database_type;
  unsupported ←
    (if bool_decide (lc ≠ "postgresql")
     then lc' ← toLowerCase "database_type" database_type;
          mret (bool_decide (lc' ≠ "postgres"))
     else mret false);
  if unsupported : bool
  then shown ← template database_type;
       mret {| content :=
         [text_of ("Unsupported database type: " +:+ shown
                   +:+ ". Only PostgreSQL is supported.")] |}
  else
  conn ← connection connection_info;
  if incomplete conn
  then mret {| content :=
    [text_of "Database connection info is incomplete. Please provide all required fields or set them in .env."] |}
  else
  let '(ddlRows, ddlError) :=
    match pg w conn table_name with
    | PgDone rows => (rows, JNull)
    | PgThrows rows err => (rows, describe err)
    end in
  if truthy ddlError
  then shown ← template ddlError;
       mret {| content := [text_of ("Failed to retrieve DDL: " +:+ shown)] |}
  else
  dataDictionary ← data_dictionary table_name ddlRows;
  mret {| content :=
    [text_of ("DDL (columns):" +:+ nl +:+ JSON_stringify w ddlRows);
     text_of ("Data Dictionary:" +:+ nl +:+ dataDictionary)] |}.

(** *** The [CallToolRequestSchema] handler of [setupTools] *)

(** [request.params] of a call-tool request that passed the schema:
    [name] is a string, [arguments] is an object or is absent. *)
Record CallToolRequest := mkCall
  { params_name : string; params_arguments : option (list (string * jsval)) }.

Definition arguments_of (request : CallToolRequest) : jsval :=
  match params_arguments request with
  | Some fields => JObject fields
  | None => JUndefined
  end.

Definition callTool (request : CallToolRequest) : completion CallToolResult :=
  let args := arguments_of request in
  let toolName := params_name request in
  if negb (truthy args) then Throw (new_Error "arguments undefined")
  else if negb (truthy (JString toolName)) then Throw (new_Error "tool name undefined")
  else if bool_decide (toolName = getDDLToolName) then handleGetDDLTool args
  else Throw (new_Error "Tool not found").

End Handlers.

(** *** Vocabulary for statements about the DDL tool *)

(** A call of the DDL tool with the given arguments object. *)
Definition call_ddl (fields : list (string * jsval)) : CallToolRequest :=
  {| params_name := getDDLToolName; params_arguments := Some fields |}.

(** The shape of well-formed arguments: a database type given as a
    non-empty string, and truthy connection info and table name. *)
Definition ddl_fields (fields : list (string * jsval)) (database_type : string)
    (connection_info table_name : jsval) : Prop :=
  own_property fields "database_type" = JString database_type
  ∧ database_type ≠ ""
  ∧ own_property fields "connection_info" = connection_info
  ∧ truthy connection_info = true
  ∧ own_property fields "table_name" = table_name
  ∧ truthy table_name = true.

(** A database type outside the Postgres family. *)
Definition unsupported (database_type : string) : Prop :=
  lower database_type ≠ "postgresql" ∧ lower database_type ≠ "postgres".

#[global] Instance unsupported_dec s : Decision (unsupported s) :=
  and_dec _ _.

(** A database type of the Postgres family, in any letter case. *)
Definition supported (database_type : string) : Prop :=
  lower database_type = "postgresql" ∨ lower database_type = "postgres".

Definition is_string (v : jsval) : bool :=
  match v with JString _ => true | _ => false end.

(** Arguments that get past the missing-parameter guard with a database
    type that is not a string. *)
Definition mistyped (fields : list (string * jsval)) : bool :=
  truthy (own_property fields "database_type")
  && truthy (own_property fields "connection_info")
  && truthy (own_property fields "table_name")
  && negb (is_string (own_property fields "database_type")).

(** Connection info that gives all five fields itself. *)
Definition fully_specified (connection_info : jsval) : bool :=
  match connection_info with
  | JObject fields =>
      truthy (own_property fields "host") && truthy (own_property fields "port")
      && truthy (own_property fields "user") && truthy (own_property fields "password")
      && truthy (own_property fields "database")
  | _ => false
  end.

(** The same collaborators in another environment. *)
Definition with_environment (w : Externals) (e : ProcessEnv)
    (number : option string -> jsnum) : Externals :=
  {| env := e; ToNumber := number; ToString := ToString w;
     JSON_stringify := JSON_stringify w; pg := pg w |}.

(** The four string fields of the connection and the variable each falls
    back to. *)
Definition string_fallbacks : list (string * (ProcessEnv -> option string)) :=
  [("host", PGHOST); ("user", PGUSER); ("password", PGPASSWORD); ("database", PGDATABASE)].

(** The line of the data dictionary for one column, and the lines for a
    list of columns. *)
Definition dictionary_entry (row : Row) : string :=
  "- " +:+ column_name row +:+ ": " +:+ data_type row +:+
  match character_maximum_length row with
  | Some z => if (z =? 0)%Z then "" else "(" +:+ pretty z +:+ ")"
  | None => ""
  end +:+ nl.

Definition dictionary_entries (rows : list Row) : string :=
  fold_right (fun row rest => dictionary_entry row +:+ rest) "" rows.

End Tools.

(** ** Identifiers drawn by [randomUUID] *)
Module Uuid.

Definition hex_digit (n : N) : ascii :=
  match n with
  | 0 => "0" | 1 => "1" | 2 => "2" | 3 => "3" | 4 => "4" | 5 => "5" | 6 => "6" | 7 => "7"
  | 8 => "8" | 9 => "9" | 10 => "a" | 11 => "b" | 12 => "c" | 13 => "d" | 14 => "e"
  | _ => "f"
  end%N%char.

(** The [k] low hexadecimal digits of [n], most significant first. *)
Fixpoint hex (k : nat) (n : N) : string :=
  match k with
  | O => EmptyString
  | S k' => hex k' (n / 16) +:+ String (hex_digit (n mod 16)) EmptyString
  end.

(** [randomUUID()] of Node's [crypto]: a version-4 UUID in its canonical
    8-4-4-4-12 rendering, as a function of the 122 random bits drawn. *)
Definition randomUUID (bits : N) : string :=
  hex 8 (bits / 2 ^ 90) +:+ "-" +:+
  hex 4 (bits / 2 ^ 74) +:+ "-" +:+
  "4" +:+ hex 3 (bits / 2 ^ 62) +:+ "-" +:+
  String (hex_digit (8 + (bits / 2 ^ 60) mod 4)) EmptyString +:+ hex 3 (bits / 2 ^ 48) +:+ "-" +:+
  hex 12 bits.

End Uuid.

(** ** Notifications, the session registry and the two HTTP entry points *)
Module Server.
Import Uuid.

(** A [StreamableHTTPServerTransport] object, by identity: the [n]-th one
    constructed by this server. *)
Definition transport := nat.

Record LoggingParams := mkParams { level : string; data : string }.
(** [Notification]: [LoggingMessageNotification] has [params],
    [ToolListChangedNotification] has none. *)
Record Notification := mkNote { method : string; params : option LoggingParams }.
Record JSONRPCNotification := mkRpcNote
  { note_method : string; note_params : option LoggingParams; note_jsonrpc : string }.

Definition JSON_RPC : string := "2.0".

Record JSONRPCError := mkRpcError
  { jsonrpc : string; error_code : Z; error_message : string; id : string }.

(** What [this.transports[k]] evaluates to when it is not [undefined]: a
    stored channel, or a member that the object literal [{}] inherits from
    [Object.prototype]. Both are truthy. *)
Inductive member :=
| Channel (t : transport)
| Inherited (name : string).

Definition Object_prototype_names : list string :=
  ["constructor"; "__proto__"; "hasOwnProperty"; "isPrototypeOf"; "propertyIsEnumerable";
   "toLocaleString"; "toString"; "valueOf"; "__defineGetter__"; "__defineSetter__";
   "__lookupGetter__"; "__lookupSetter__"].

(** The state of the interval armed by one call of [streamMessages]. *)
Record stream := mkStream { messageCount : nat; interval : bool }.

(** The [MCPServer] object together with the part of the process it acts on. *)
Record state := mkState
  { (** [this.transports]: own properties, session id to channel *)
    transports : gmap string transport;
    (** what the installed list-tools handler answers, once one is installed *)
    list_tools_handler : option (list Tools.Tool);
    (** [this.toolInterval] is armed *)
    toolInterval : bool;
    (** intervals armed by [streamMessages], oldest first *)
    streams : list (transport * stream);
    (** number of transports constructed so far *)
    constructed : nat;
    (** number of [randomUUID()] calls so far *)
    uuid_draws : nat;
    (** calls of [transport.send], oldest first *)
    wire : list (transport * JSONRPCNotification);
    (** promises rejected with nobody awaiting them *)
    unhandled : list Error;
    (** [console.error] lines: label and error *)
    console : list (string * Error) }.

(** What lies outside [server.ts]. *)
Record Runtime := mkRuntime
  { (** the random bits of the [n]-th [randomUUID()] call *)
    entropy : nat -> N;
    (** [InitializeRequestSchema.safeParse(data).success] *)
    isInitial : jsval -> bool;
    (** whether [transport.send(m)] rejects, given the number of earlier sends *)
    send_rejects : nat -> transport -> JSONRPCNotification -> option Error }.

(** How the SDK reacts to one HTTP request. *)
Inductive handle_reaction :=
| Handled (initialized : bool)
  (** [transport.handleRequest] answered the request itself; on a new
      transport, [initialized] tells whether it accepted an initialize call,
      which is when it calls [sessionIdGenerator] and sets [sessionId] *)
| HandleThrows (e : Error).
Record Sdk := mkSdk
  { (** [server.connect(transport)] throws *)
    connect_throws : option Error;
    on_handle : handle_reaction }.

(** The answer to one HTTP request. *)
Inductive reply :=
| Json (status : Z) (body : JSONRPCError)
  (** [res.status(status).json(body)] *)
| ByTransport (t : transport).
  (** the response was left to [t.handleRequest] *)

(** Field updates of [state]. *)
Definition with_transports (m : gmap string transport) (st : state) : state :=
  mkState m (list_tools_handler st) (toolInterval st) (streams st) (constructed st)
          (uuid_draws st) (wire st) (unhandled st) (console st).
Definition with_list_tools_handler (h : option (list Tools.Tool)) (st : state) : state :=
  mkState (transports st) h (toolInterval st) (streams st) (constructed st)
          (uuid_draws st) (wire st) (unhandled st) (console st).
Definition with_toolInterval (b : bool) (st : state) : state :=
  mkState (transports st) (list_tools_handler st) b (streams st) (constructed st)
          (uuid_draws st) (wire st) (unhandled st) (console st).
Definition with_streams (l : list (transport * stream)) (st : state) : state :=
  mkState (transports st) (list_tools_handler st) (toolInterval st) l (constructed st)
          (uuid_draws st) (wire st) (unhandled st) (console st).
Definition with_constructed (n : nat) (st : state) : state :=
  mkState (transports st) (list_tools_handler st) (toolInterval st) (streams st) n
          (uuid_draws st) (wire st) (unhandled st) (console st).
Definition with_uuid_draws (n : nat) (st : state) : state :=
  mkState (transports st) (list_tools_handler st) (toolInterval st) (streams st)
          (constructed st) n (wire st) (unhandled st) (console st).
Definition with_wire (l : list (transport * JSONRPCNotification)) (st : state) : state :=
  mkState (transports st) (list_tools_handler st) (toolInterval st) (streams st)
          (constructed st) (uuid_draws st) l (unhandled st) (console st).
Definition with_unhandled (l : list Error) (st : state) : state :=
  mkState (transports st) (list_tools_handler st) (toolInterval st) (streams st)
          (constructed st) (uuid_draws st) (wire st) l (console st).
Definition with_console (l : list (string * Error)) (st : state) : state :=
  mkState (transports st) (list_tools_handler st) (toolInterval st) (streams st)
          (constructed st) (uuid_draws st) (wire st) (unhandled st) l.

(** [{ ...notification, jsonrpc: v }] *)
Definition with_jsonrpc (notification : Notification) (v : string) : JSONRPCNotification :=
  {| note_method := method notification; note_params := params notification;
     note_jsonrpc := v |}.

Section WithRuntime.
Context (rt : Runtime).

(** [this.transports[k]] *)
Definition lookup_transport (st : state) (k : string) : option member :=
  match transports st !! k with
  | Some t => Some (Channel t)
  | None => if bool_decide (k ∈ Object_prototype_names) then Some (Inherited k) else None
  end.

(** [Object.values(this.transports)]: own properties only. The order among
    channels is the map's, not the insertion order of the object. *)
Definition Object_values (st : state) : list transport := (map_to_list (transports st)).*2.

(** A header value as a condition: [undefined] and the empty string are falsy. *)
Definition present (sessionId : option string) : bool :=
  match sessionId with
  | Some s => negb (String.eqb s "")
  | None => false
  end.

(** [sessionId && this.transports[sessionId]] *)
Definition resolve (st : state) (sessionId : option string) : option member :=
  match sessionId with
  | Some k => if present sessionId then lookup_transport st k else None
  | None => None
  end.

Definition draw_uuid (st : state) : string * state :=
  (randomUUID (entropy rt (uuid_draws st)), with_uuid_draws (S (uuid_draws st)) st).

Definition createErrorResponse (message : string) (st : state) : JSONRPCError * state :=
  let '(uuid, st) := draw_uuid st in
  ({| jsonrpc := "2.0"; error_code := -32000; error_message := message; id := uuid |}, st).

Definition isInitializeRequest (body : jsval) : bool :=
  match body with
  | JArray items => existsb (isInitial rt) items
  | _ => isInitial rt body
  end.

Definition console_error (label : string) (e : Error) (st : state) : state :=
  with_console (console st ++ [(label, e)]) st.

(** *** [sendNotification] *)

(** The promise an [async] call returns, once settled. *)
Inductive promise := Fulfilled | Rejected (e : Error).

(** [sendNotification] is [async]: whatever [transport.send] does, the call
    itself completes normally and hands back a promise. *)
Definition sendNotification (transport : transport) (notification : Notification)
    (st : state) : promise * state :=
  let rpcNotification := with_jsonrpc notification JSON_RPC in
  let outcome := send_rejects rt (length (wire st)) transport rpcNotification in
  (match outcome with Some e => Rejected e | None => Fulfilled end,
   with_wire (wire st ++ [(transport, rpcNotification)]) st).

(** An expression statement [this.sendNotification(...);]: the promise is
    dropped, so a rejection is nobody's to handle and no [catch] around the
    statement ever runs. *)
Definition forget (r : promise * state) : state :=
  let '(p, st) := r in
  match p with
  | Fulfilled => st
  | Rejected e => with_unhandled (unhandled st ++ [e]) st
  end.

(** *** [streamMessages] *)

Definition logging_message (text : string) : Notification :=
  {| method := "notifications/message";
     params := Some {| level := "info"; data := text |} |}.

(** The callback given to [setInterval] in [streamMessages]; [now] is
    [new Date().toISOString()] at the time it runs. *)
Definition interval_callback (now : string) (transport : transport)
    (s : stream) (st : state) : stream * state :=
  let messageCount := S (messageCount s) in
  let data := "Message " +:+ pretty messageCount +:+ " at " +:+ now in
  let st := forget (sendNotification transport (logging_message data) st) in
  if (messageCount =? 2)%nat
  then (* clearInterval(interval) *)
       (mkStream messageCount false,
        forget (sendNotification transport (logging_message "Streaming complete!") st))
  else (mkStream messageCount (interval s), st).

(** The event loop reaching the period of an interval: a cleared interval
    does not run its callback. *)
Definition interval_fires (now : string) (transport : transport)
    (s : stream) (st : state) : stream * state :=
  if interval s then interval_callback now transport s st else (s, st).

Definition streamMessages (transport : transport) (st : state) : stream * state :=
  let st := forget (sendNotification transport (logging_message "SSE Connection established") st) in
  (mkStream 0 true, st).

(** One stream from its start through the firings of its interval at the
    given times. *)
Definition stream_run (transport : transport) (times : list string) (st : state)
    : stream * state :=
  fold_left (fun acc now => interval_fires now transport (fst acc) (snd acc))
            times (streamMessages transport st).

(** *** [setupTools] *)

Definition setToolSchema (st : state) : state :=
  with_list_tools_handler (Some Tools.listTools) st.

Definition tool_list_changed : Notification :=
  {| method := "notifications/tools/list_changed"; params := None |}.

(** The callback given to [setInterval] in [setupTools]. *)
Definition toolInterval_callback (st : state) : state :=
  let st := setToolSchema st in
  fold_left (fun st transport => forget (sendNotification transport tool_list_changed st))
            (Object_values st) st.

(** [setupTools]: install the list-tools handler and arm the timer. (The
    call-tool handler it also installs is [Tools.callTool].) *)
Definition setupTools (st : state) : state :=
  with_toolInterval true (setToolSchema st).

(** [new MCPServer(server)] in a fresh process. *)
Definition MCPServer : state :=
  setupTools (mkState ∅ None false [] 0 0 [] [] []).

(** [cleanup]: [this.toolInterval?.close()], then
    [await this.server.close()]. Closing the SDK server is the SDK's
    business; [close_throws] is the error it rejects with, if it does, and
    that rejection is then the completion of [cleanup]. *)
Definition cleanup (close_throws : option Error) (st : state) : completion unit * state :=
  let st := with_toolInterval false st in
  (match close_throws with Some e => Throw e | None => Normal tt end, st).

(** *** [handleGetRequest] and [handlePostRequest] *)

Definition not_a_function : Error :=
  TypeError "transport.handleRequest is not a function".

(** [await transport.handleRequest(...)] on the value found in the registry. *)
Definition handleRequest (found : member) (sdk : Sdk) : completion transport :=
  match found with
  | Inherited _ => Throw not_a_function
  | Channel t =>
      match on_handle sdk with
      | Handled _ => Normal t
      | HandleThrows e => Throw e
      end
  end.

Definition bad_request (st : state) : reply * state :=
  let '(body, st) := createErrorResponse "Bad Request: invalid session ID or method." st in
  (Json 400 body, st).

(** [handleGetRequest] has no [try]: what [transport.handleRequest] throws
    is the completion of the handler. *)
Definition handleGetRequest (sessionId : option string) (sdk : Sdk) (st : state)
    : completion reply * state :=
  match resolve st sessionId with
  | None =>
      let '(r, st) := bad_request st in (Normal r, st)
  | Some transport =>
      match handleRequest transport sdk with
      | Throw e => (Throw e, st)
      | Normal t =>
          let '(s, st) := streamMessages t st in
          (Normal (ByTransport t), with_streams (streams st ++ [(t, s)]) st)
      end
  end.

(** The [catch] block of [handlePostRequest]. *)
Definition internal_error (error : Error) (st : state) : completion reply * state :=
  let st := console_error "Error handling MCP request:" error st in
  let '(body, st) := createErrorResponse "Internal server error." st in
  (Normal (Json 500 body), st).

Definition handlePostRequest (sessionId : option string) (body : jsval) (sdk : Sdk)
    (st : state) : completion reply * state :=
  match resolve st sessionId with
  | Some transport =>
      match handleRequest transport sdk with
      | Normal t => (Normal (ByTransport t), st)
      | Throw e => internal_error e st
      end
  | None =>
      if negb (present sessionId) && isInitializeRequest body
      then
        (* new StreamableHTTPServerTransport({ sessionIdGenerator: () => randomUUID() }) *)
        let transport := constructed st in
        let st := with_constructed (S transport) st in
        match connect_throws sdk with
        | Some e => internal_error e st
        | None =>
            match on_handle sdk with
            | HandleThrows e => internal_error e st
            | Handled initialized =>
                (* const sessionId = transport.sessionId *)
                let '(sessionId, st) :=
                  if initialized
                  then let '(uuid, st) := draw_uuid st in (Some uuid, st)
                  else (None, st) in
                (* if (sessionId) this.transports[sessionId] = transport: an
                   assignment of an own property, the key being an
                   identifier drawn by randomUUID *)
                match sessionId with
                | Some k =>
                    if present sessionId
                    then (Normal (ByTransport transport),
                          with_transports (<[k := transport]> (transports st)) st)
                    else (Normal (ByTransport transport), st)
                | None => (Normal (ByTransport transport), st)
                end
            end
        end
      else
        let '(r, st) := bad_request st in (Normal r, st)
  end.

(** *** The process as an event loop *)

Inductive event :=
| GET (sessionId : option string) (sdk : Sdk)
| POST (sessionId : option string) (body : jsval) (sdk : Sdk)
| ToolTimer
  (** the period of [this.toolInterval] elapses *)
| StreamTimer (i : nat) (now : string)
  (** the period of the [i]-th stream interval elapses *)
| Shutdown (close_throws : option Error).
  (** [cleanup] is called; its completion is its caller's to handle *)

(** A handler promise that rejects has no one awaiting it either. *)
Definition settle (r : completion reply * state) : state :=
  match r with
  | (Normal _, st) => st
  | (Throw e, st) => with_unhandled (unhandled st ++ [e]) st
  end.

Definition step (st : state) (ev : event) : state :=
  match ev with
  | GET sessionId sdk => settle (handleGetRequest sessionId sdk st)
  | POST sessionId body sdk => settle (handlePostRequest sessionId body sdk st)
  | ToolTimer => if toolInterval st then toolInterval_callback st else st
  | StreamTimer i now =>
      match streams st !! i with
      | Some (t, s) =>
          let '(s, st) := interval_fires now t s st in
          with_streams (<[i := (t, s)]> (streams st)) st
      | None => st
      end
  | Shutdown close_throws => snd (cleanup close_throws st)
  end.

Definition run (events : list event) (st : state) : state := fold_left step events st.

End WithRuntime.

(** *** Vocabulary for statements about sessions and notifications *)

(** The identifier produced by the [n]-th [randomUUID()] call. *)
Definition drawn (rt : Runtime) (n : nat) : string := randomUUID (entropy rt n).

(** The first [n] identifiers drawn are pairwise distinct. *)
Definition distinct_draws (rt : Runtime) (n : nat) : Prop :=
  ∀ i j, i < j → j < n → drawn rt i ≠ drawn rt j.

(** The SDK connects the new transport and accepts the initialize call. *)
Definition accepts (sdk : Sdk) : Prop :=
  connect_throws sdk = None ∧ on_handle sdk = Handled true.

(** The error envelope of [createErrorResponse]. *)
Definition error_envelope (message uuid : string) : JSONRPCError :=
  {| jsonrpc := "2.0"; error_code := -32000; error_message := message; id := uuid |}.

(** The messages of one complete stream, given the times of the first two
    firings of its interval. *)
Definition established : JSONRPCNotification :=
  with_jsonrpc (logging_message "SSE Connection established") "2.0".
Definition periodic (n : string) (now : string) : JSONRPCNotification :=
  with_jsonrpc (logging_message ("Message " +:+ n +:+ " at " +:+ now)) "2.0".
Definition complete : JSONRPCNotification :=
  with_jsonrpc (logging_message "Streaming complete!") "2.0".

Definition stream_messages (times : list string) : list JSONRPCNotification :=
  established ::
  match times with
  | [] => []
  | [t1] => [periodic "1" t1]
  | t1 :: t2 :: _ => [periodic "1" t1; periodic "2" t2; complete]
  end.

(** What holds of the registry in every state the server reaches: stored
    channels were constructed by the server, no channel is stored under two
    ids, and every id stored was drawn from [randomUUID]. *)
Record registry_ok (rt : Runtime) (st : state) : Prop := mkRegistryOk
  { stored_constructed : ∀ k t, transports st !! k = Some t → t < constructed st;
    stored_once : ∀ k1 k2 t,
      transports st !! k1 = Some t → transports st !! k2 = Some t → k1 = k2;
    stored_drawn : ∀ k t,
      transports st !! k = Some t → ∃ i, i < uuid_draws st ∧ k = drawn rt i }.

(** How one event may change the registry and the two counters: it leaves
    the registry alone, or it stores the channel just constructed under the
    identifier just drawn. *)
Inductive registry_step (rt : Runtime) (st st' : state) : Prop :=
| registry_same :
    transports st' = transports st →
    (constructed st ≤ constructed st')%nat →
    (uuid_draws st ≤ uuid_draws st')%nat →
    registry_step rt st st'
| registry_stored :
    transports st' = <[drawn rt (uuid_draws st) := constructed st]> (transports st) →
    constructed st' = S (constructed st) →
    uuid_draws st' = S (uuid_draws st) →
    registry_step rt st st'.

(** The errors of the sends in [sent] that are rejected, [n] sends having
    been made before them. *)
Fixpoint rejections (rt : Runtime) (n : nat) (sent : list (transport * JSONRPCNotification))
    : list Error :=
  match sent with
  | [] => []
  | (t, m) :: rest =>
      match send_rejects rt n t m with
      | Some e => e :: rejections rt (S n) rest
      | None => rejections rt (S n) rest
      end
  end.

(** A logging message, and the catalog notification, as they go on the wire. *)
Definition is_logging (m : JSONRPCNotification) : Prop :=
  note_jsonrpc m = "2.0" ∧ note_method m = "notifications/message"
  ∧ ∃ text, note_params m = Some {| level := "info"; data := text |}.

Definition is_list_changed (m : JSONRPCNotification) : Prop :=
  m = with_jsonrpc tool_list_changed "2.0".

(** Where a notification sent in state [st] goes, and what it is: a
    logging message or, while the catalog timer is armed, the catalog
    notification; to a stored channel or to the channel of a stream. *)
Definition sent_from (st : state) (tm : transport * JSONRPCNotification) : Prop :=
  (is_logging tm.2 ∨ (is_list_changed tm.2 ∧ toolInterval st = true))
  ∧ ((∃ k, transports st !! k = Some tm.1) ∨ (∃ s, (tm.1, s) ∈ streams st)).

(** Channels that streams run on and that notifications were sent to were
    all constructed by the server; what was sent are logging messages and
    catalog notifications. *)
Definition sends_ok (rt : Runtime) (st : state) : Prop :=
  registry_ok rt st
  ∧ (∀ t s, (t, s) ∈ streams st → t < constructed st)
  ∧ Forall (fun tm : transport * JSONRPCNotification =>
              tm.1 < constructed st ∧ (is_logging tm.2 ∨ is_list_changed tm.2)) (wire st).

End Server.

(** ** Sample inputs used to exercise the statements below *)
Module Samples.
Import Tools.

(** A process without [PG*] variables and with no database listening. *)
Definition offline : Externals :=
  {| env := mkEnv None None None None None;
     ToNumber := fun _ => NaN;
     ToString := fun _ => "[object Object]";
     JSON_stringify := fun _ => "[]";
     pg := fun _ _ => PgThrows [] (mkErr "Error" "connect ECONNREFUSED 127.0.0.1:5432") |}.

Definition local_db : jsval :=
  JObject [("host", JString "localhost"); ("port", JNumber (Num 5432));
           ("user", JString "steward"); ("password", JString "secret");
           ("database", JString "inventory")].

Definition ddl_arguments (database_type : string) (connection_info : jsval)
  : list (string * jsval) :=
  [("database_type", JString database_type); ("connection_info", connection_info);
   ("table_name", JString "items")].

(** Runtimes: one whose identifiers never repeat early on and whose sends
    succeed, one whose generator repeats itself, one whose every other send
    is rejected. *)
Definition is_object (v : jsval) : bool :=
  match v with JObject _ => true | _ => false end.

(** An initialize request as the schema wants it: the method, and params
    with a protocol version, capabilities and the client's name and version. *)
Definition is_initialize (v : jsval) : bool :=
  match v with
  | JObject fields =>
      match own_property fields "method", own_property fields "params" with
      | JString m, JObject params =>
          String.eqb m "initialize"
          && Tools.is_string (own_property params "protocolVersion")
          && is_object (own_property params "capabilities")
          && match own_property params "clientInfo" with
             | JObject info =>
                 Tools.is_string (own_property info "name")
                 && Tools.is_string (own_property info "version")
             | _ => false
             end
      | _, _ => false
      end
  | _ => false
  end.

Definition steady : Server.Runtime :=
  {| Server.entropy := N.of_nat;
     Server.isInitial := is_initialize;
     Server.send_rejects := fun _ _ _ => None |}.

Definition repeating : Server.Runtime :=
  {| Server.entropy := fun _ => 0%N;
     Server.isInitial := is_initialize;
     Server.send_rejects := fun _ _ _ => None |}.

Definition flaky : Server.Runtime :=
  {| Server.entropy := N.of_nat;
     Server.isInitial := is_initialize;
     Server.send_rejects := fun n _ _ =>
       if Nat.even n then Some (new_Error "Not connected") else None |}.

Definition initialize : jsval :=
  JObject [("jsonrpc", JString "2.0"); ("id", JNumber (Num 1)); ("method", JString "initialize");
           ("params", JObject
              [("protocolVersion", JString "2025-03-26");
               ("capabilities", JObject []);
               ("clientInfo", JObject [("name", JString "inspector");
                                       ("version", JString "1.0.0")])])].

Definition tools_list : jsval :=
  JObject [("jsonrpc", JString "2.0"); ("id", JNumber (Num 2)); ("method", JString "tools/list")].

Definition accepting : Server.Sdk := Server.mkSdk None (Server.Handled true).

(** A process whose database answers with the two columns of [items]. *)
Definition items_columns : list Row :=
  [mkRow "id" "integer" None; mkRow "name" "character varying" (Some 255%Z)].

(** A process whose database client fails with an error that has neither
    a name nor a message. *)
Definition mute : Externals :=
  {| env := mkEnv None None None None None;
     ToNumber := fun _ => NaN;
     ToString := fun _ => "[object Object]";
     JSON_stringify := fun _ => "[]";
     pg := fun _ _ => PgThrows [] (mkErr "" "") |}.

Definition online : Externals :=
  {| env := mkEnv (Some "db.internal") (Some "5432") (Some "steward") (Some "secret")
                  (Some "inventory");
     ToNumber := fun _ => Num 5432;
     ToString := fun _ => "[object Object]";
     JSON_stringify := fun rows => "[ " +:+ pretty (length rows) +:+ " rows ]";
     pg := fun _ _ => PgDone items_columns |}.

End Samples.

(** ** Properties of the call-tool handler *)
Module ToolsSpec.
Import Tools.

Lemma truthy_JString (s : string) : truthy (JString s) = true ↔ s ≠ "".
Proof.
  simpl. destruct (String.eqb_spec s ""); simpl; split; congruence.
Qed.

Lemma get_truthy (v : jsval) (k : string) :
  truthy v = true → ∃ x, get v k = Normal x.
Proof. destruct v; simpl; try discriminate; eauto. Qed.

Lemma connection_truthy (w : Externals) (connection_info : jsval) :
  truthy connection_info = true → ∃ conn, connection w connection_info = Normal conn.
Proof.
  intros Ht. unfold connection.
  destruct connection_info; simpl in *; try discriminate; eauto.
Qed.

(** The dispatch of a request with arguments and a non-empty tool name. *)
Lemma callTool_dispatch (w : Externals) (toolName : string) (fields : list (string * jsval)) :
  toolName ≠ "" →
  callTool w (mkCall toolName (Some fields)) =
    if bool_decide (toolName = getDDLToolName)
    then handleGetDDLTool w (JObject fields)
    else Throw (new_Error "Tool not found").
Proof.
  intros Hname. unfold callTool. simpl.
  destruct (String.eqb_spec toolName ""); [contradiction | reflexivity].
Qed.

(** C1 (as stated) fails: a request for a tool that is not in the catalog,
    with arguments and a tool name, gets no result at all; the handler throws. *)
Lemma callTool_unknown_no_result :
  let request := mkCall "drop_table" (Some []) in
  params_name request ≠ getDDLToolName ∧
  ¬ ∃ result, callTool Samples.offline request = Normal result.
Proof.
  split; [discriminate |]. intros [result H]. vm_compute in H. discriminate.
Qed.

(** C1 (amended): for every call-tool request that carries arguments and a
    non-empty tool name other than [get_database_table_ddl], the handler
    throws [Error("Tool not found")]; it returns no result. *)
Theorem callTool_unknown_throws (w : Externals) (request : CallToolRequest) :
  params_arguments request ≠ None →
  params_name request ≠ "" →
  params_name request ≠ getDDLToolName →
  callTool w request = Throw (new_Error "Tool not found")
  ∧ is_Normal (callTool w request) = false.
Proof.
  intros Hargs Hname Hunknown.
  destruct request as [toolName [fields|]]; simpl in *; [| congruence].
  rewrite callTool_dispatch by assumption.
  rewrite bool_decide_eq_false_2 by assumption. split; reflexivity.
Qed.

Lemma callTool_unknown_throws_witness :
  callTool Samples.offline (mkCall "drop_table" (Some [])) = Throw (new_Error "Tool not found")
  ∧ is_Normal (callTool Samples.offline (mkCall "drop_table" (Some []))) = false.
Proof.
  apply (callTool_unknown_throws Samples.offline (mkCall "drop_table" (Some [])));
    simpl; discriminate.
Defined.

(** C10: when [get_database_table_ddl] is called with an arguments object in
    which [database_type], [connection_info] or [table_name] is missing or
    falsy, the handler returns the single text
    "Missing required parameters: ..." and does not throw; with no arguments
    object at all it throws. *)
Theorem callTool_missing_parameters (w : Externals) (fields : list (string * jsval)) :
  truthy (own_property fields "database_type") = false
  ∨ truthy (own_property fields "connection_info") = false
  ∨ truthy (own_property fields "table_name") = false →
  callTool w (call_ddl fields) =
    Normal {| content :=
      [text_of "Missing required parameters: database_type, connection_info, or table_name."] |}
  ∧ callTool w (mkCall getDDLToolName None) = Throw (new_Error "arguments undefined").
Proof.
  intros Hmissing. split; [| reflexivity].
  unfold call_ddl. rewrite callTool_dispatch by discriminate.
  rewrite bool_decide_eq_true_2 by reflexivity.
  unfold handleGetDDLTool. simpl get. cbn [mbind completion_bind].
  destruct Hmissing as [H | [H | H]]; rewrite H; simpl;
    repeat (rewrite ?orb_true_r, ?orb_true_l); reflexivity.
Qed.

Lemma callTool_missing_parameters_witness :
  callTool Samples.offline (call_ddl [("database_type", JString "postgresql"); ("table_name", JString "")]) =
    Normal {| content :=
      [text_of "Missing required parameters: database_type, connection_info, or table_name."] |}
  ∧ callTool Samples.offline (mkCall getDDLToolName None) = Throw (new_Error "arguments undefined").
Proof.
  apply (callTool_missing_parameters Samples.offline
           [("database_type", JString "postgresql"); ("table_name", JString "")]).
  right; left; reflexivity.
Defined.

(** The handler on well-formed arguments, up to the database type test. *)
Lemma handleGetDDLTool_typed w fields database_type connection_info table_name :
  ddl_fields fields database_type connection_info table_name →
  handleGetDDLTool w (JObject fields) =
    if decide (unsupported database_type)
    then Normal {| content :=
           [text_of ("Unsupported database type: " +:+ database_type
                     +:+ ". Only PostgreSQL is supported.")] |}
    else
      conn ← connection w connection_info;
      if incomplete conn
      then mret {| content :=
        [text_of "Database connection info is incomplete. Please provide all required fields or set them in .env."] |}
      else
      let '(ddlRows, ddlError) :=
        match pg w conn table_name with
        | PgDone rows => (rows, JNull)
        | PgThrows rows err => (rows, describe err)
        end in
      if truthy ddlError
      then shown ← template w ddlError;
           mret {| content := [text_of ("Failed to retrieve DDL: " +:+ shown)] |}
      else
      dataDictionary ← data_dictionary w table_name ddlRows;
      mret {| content :=
        [text_of ("DDL (columns):" +:+ nl +:+ JSON_stringify w ddlRows);
         text_of ("Data Dictionary:" +:+ nl +:+ dataDictionary)] |}.
Proof.
  intros (Hdt & Hne & Hci & Hcit & Htn & Htnt).
  unfold handleGetDDLTool. simpl get. cbn [mbind completion_bind].
  rewrite Hdt, Hci, Htn, Hcit, Htnt.
  apply truthy_JString in Hne as Hdtt. rewrite Hdtt.
  cbn [negb orb toLowerCase mbind completion_bind template].
  unfold unsupported.
  destruct (decide (lower database_type = "postgresql")) as [E1 | N1].
  - rewrite bool_decide_eq_false_2 by tauto. cbn [mret completion_ret].
    rewrite decide_False by tauto. reflexivity.
  - rewrite bool_decide_eq_true_2 by assumption. cbn [mbind completion_bind mret completion_ret].
    destruct (decide (lower database_type = "postgres")) as [E2 | N2].
    + rewrite bool_decide_eq_false_2 by tauto. rewrite decide_False by tauto. reflexivity.
    + rewrite bool_decide_eq_true_2 by assumption. rewrite decide_True by tauto. reflexivity.
Qed.

(** C6 fails where the handler trusts its input. A database type that is
    not a string, a number or an array holding "mysql", is no supported type,
    but the handler calls [toLowerCase] on it and throws the [TypeError]
    instead of returning the text that names it; and an exception of the
    database client whose description is empty is taken for no exception: the
    result reports a table without columns instead of the failure. *)
Theorem callTool_failures_not_reported :
  callTool Samples.offline
    (call_ddl [("database_type", JNumber (Num 5)); ("connection_info", Samples.local_db);
               ("table_name", JString "items")])
  = Throw (TypeError "database_type.toLowerCase is not a function")
  ∧ callTool Samples.offline
      (call_ddl [("database_type", JArray [JString "mysql"]);
                 ("connection_info", Samples.local_db); ("table_name", JString "items")])
    = Throw (TypeError "database_type.toLowerCase is not a function")
  ∧ callTool Samples.mute (call_ddl (Samples.ddl_arguments "postgresql" Samples.local_db))
    = Normal {| content :=
        [text_of ("DDL (columns):" +:+ nl +:+ "[]");
         text_of ("Data Dictionary:" +:+ nl +:+ "Table " +:+ dquote +:+ "items" +:+ dquote
                  +:+ " columns:" +:+ nl +:+ "No columns found.")] |}.
Proof. repeat split; reflexivity. Qed.

(** X24: when [database_type] is a non-empty string and
    [connection_info] and [table_name] are truthy, each failure of the DDL
    tool is answered with a result whose single text explains it, never with
    a thrown error: a database type outside the Postgres family is named as
    unsupported, incomplete connection info is reported, and an exception of
    the database client that has a description is reported with it. *)
Theorem callTool_failures_are_results (w : Externals) (fields : list (string * jsval))
    (database_type : string) (connection_info table_name : jsval) :
  ddl_fields fields database_type connection_info table_name →
  let reply := callTool w (call_ddl fields) in
  (unsupported database_type →
     reply = Normal {| content :=
       [text_of ("Unsupported database type: " +:+ database_type
                 +:+ ". Only PostgreSQL is supported.")] |})
  ∧ (∀ conn, ¬ unsupported database_type →
       connection w connection_info = Normal conn → incomplete conn = true →
       reply = Normal {| content :=
         [text_of "Database connection info is incomplete. Please provide all required fields or set them in .env."] |})
  ∧ (∀ conn rows err reason, ¬ unsupported database_type →
       connection w connection_info = Normal conn → incomplete conn = false →
       pg w conn table_name = PgThrows rows err →
       describe err = JString reason → reason ≠ "" →
       reply = Normal {| content := [text_of ("Failed to retrieve DDL: " +:+ reason)] |}).
Proof.
  intros Hfields reply. subst reply.
  unfold call_ddl. rewrite callTool_dispatch by discriminate.
  rewrite bool_decide_eq_true_2 by reflexivity.
  rewrite (handleGetDDLTool_typed w fields _ _ _ Hfields).
  split; [| split].
  - intros Hu. rewrite decide_True by assumption. reflexivity.
  - intros conn Hs Hconn Hinc. rewrite decide_False by assumption.
    rewrite Hconn. cbn [mbind completion_bind]. rewrite Hinc. reflexivity.
  - intros conn rows err reason Hs Hconn Hinc Hpg Hdescr Hreason.
    rewrite decide_False by assumption.
    rewrite Hconn. cbn [mbind completion_bind]. rewrite Hinc, Hpg, Hdescr.
    apply truthy_JString in Hreason. rewrite Hreason. reflexivity.
Qed.

(** Outside those arguments: a database type that is not a string has no
    [toLowerCase], and the handler throws. *)
Example callTool_numeric_database_type :
  callTool Samples.offline
    (call_ddl [("database_type", JNumber (Num 5)); ("connection_info", Samples.local_db);
               ("table_name", JString "items")])
  = Throw (TypeError "database_type.toLowerCase is not a function").
Proof. reflexivity. Qed.

Example callTool_database_down :
  callTool Samples.offline (call_ddl (Samples.ddl_arguments "PostgreSQL" Samples.local_db))
  = Normal {| content :=
      [text_of "Failed to retrieve DDL: connect ECONNREFUSED 127.0.0.1:5432"] |}.
Proof. reflexivity. Qed.

Lemma callTool_failures_are_results_witness :
  callTool Samples.offline (call_ddl (Samples.ddl_arguments "mysql" Samples.local_db)) =
    Normal {| content :=
      [text_of "Unsupported database type: mysql. Only PostgreSQL is supported."] |}.
Proof.
  refine (proj1 (callTool_failures_are_results Samples.offline
                   (Samples.ddl_arguments "mysql" Samples.local_db)
                   "mysql" Samples.local_db (JString "items") _) _).
  - repeat split; discriminate.
  - split; discriminate.
Defined.

End ToolsSpec.

(** ** Properties of the identifiers *)
Module UuidSpec.
Import Uuid.

Lemma length_app (s1 s2 : string) :
  String.length (s1 +:+ s2) = String.length s1 + String.length s2.
Proof. induction s1 as [| c s1 IH]; simpl; [reflexivity | now rewrite IH]. Qed.

Lemma length_hex (k : nat) (n : N) : String.length (hex k n) = k.
Proof.
  revert n. induction k as [| k IH]; intros n; simpl; [reflexivity |].
  rewrite length_app, IH. simpl. lia.
Qed.

Lemma length_randomUUID (bits : N) : String.length (randomUUID bits) = 36.
Proof.
  unfold randomUUID. repeat rewrite length_app. repeat rewrite length_hex. reflexivity.
Qed.

Lemma randomUUID_nonempty (bits : N) : randomUUID bits ≠ "".
Proof.
  intros H. pose proof (length_randomUUID bits) as L. rewrite H in L. discriminate.
Qed.

Lemma randomUUID_not_inherited (bits : N) :
  randomUUID bits ∉ Server.Object_prototype_names.
Proof.
  intros H. pose proof (length_randomUUID bits) as L.
  unfold Server.Object_prototype_names in H.
  repeat (apply elem_of_cons in H as [H | H]; [rewrite H in L; discriminate |]).
  by apply elem_of_nil in H.
Qed.

End UuidSpec.

(** ** Properties of the notification engine *)
Module NotifySpec.
Import Server.

Section WithRuntime.
Context (rt : Runtime).

(** What a dropped [sendNotification] changes: one more send on the wire,
    possibly one more unhandled rejection. *)
Lemma forget_send_wire t n st :
  wire (forget (sendNotification rt t n st)) = (wire st ++ [(t, with_jsonrpc n "2.0")])%list.
Proof.
  unfold forget, sendNotification.
  destruct (send_rejects rt _ _ _); reflexivity.
Qed.

Lemma forget_send_frame t n st st' :
  st' = forget (sendNotification rt t n st) →
  transports st' = transports st ∧ constructed st' = constructed st
  ∧ uuid_draws st' = uuid_draws st ∧ list_tools_handler st' = list_tools_handler st
  ∧ streams st' = streams st ∧ toolInterval st' = toolInterval st
  ∧ console st' = console st.
Proof.
  intros ->. unfold forget, sendNotification.
  destruct (send_rejects rt _ _ _); repeat split; reflexivity.
Qed.

(** A cleared interval stays silent however often its period elapses. *)
Lemma cleared_stays_silent t times s st :
  interval s = false →
  fold_left (fun acc now => interval_fires rt now t (fst acc) (snd acc)) times (s, st) = (s, st).
Proof.
  intros Hs. induction times as [| now times IH]; simpl; [reflexivity |].
  unfold interval_fires at 2. rewrite Hs. exact IH.
Qed.

Lemma callback_first now t st :
  interval_callback rt now t (mkStream 0 true) st =
    (mkStream 1 true,
     forget (sendNotification rt t (logging_message ("Message 1 at " +:+ now)) st)).
Proof. reflexivity. Qed.

Lemma callback_second now t st :
  interval_callback rt now t (mkStream 1 true) st =
    (mkStream 2 false,
     forget (sendNotification rt t (logging_message "Streaming complete!")
       (forget (sendNotification rt t (logging_message ("Message 2 at " +:+ now)) st)))).
Proof. reflexivity. Qed.

(** Two firings complete the stream; later ones find the interval cleared. *)
Lemma stream_run_two t t1 t2 rest st :
  stream_run rt t (t1 :: t2 :: rest) st =
    (mkStream 2 false,
     forget (sendNotification rt t (logging_message "Streaming complete!")
       (forget (sendNotification rt t (logging_message ("Message 2 at " +:+ t2))
         (forget (sendNotification rt t (logging_message ("Message 1 at " +:+ t1))
           (forget (sendNotification rt t (logging_message "SSE Connection established") st)))))))).
Proof.
  unfold stream_run. cbn [fold_left].
  etransitivity; [| apply (cleared_stays_silent t rest (mkStream 2 false)); reflexivity].
  reflexivity.
Qed.

End WithRuntime.

(** C3: one run of [streamMessages] on a channel puts on the wire, in this
    order, the "SSE Connection established" message, the periodic messages
    numbered 1 and 2 of the first two firings of its interval, and the
    "Streaming complete!" message; whatever the outcome of the sends and
    however many more times the period elapses, nothing follows, and the
    interval is cleared from the second firing on. *)
Theorem stream_run_messages (rt : Runtime) (t : transport) (times : list string) (st : state) :
  wire (snd (stream_run rt t times st)) =
    (wire st ++ map (fun m => (t, m)) (stream_messages times))%list
  ∧ interval (fst (stream_run rt t times st)) = (length times <? 2)%nat.
Proof.
  destruct times as [| t1 [| t2 rest]].
  - split; [| reflexivity].
    change (stream_run rt t [] st) with (streamMessages rt t st).
    unfold streamMessages. cbn [snd]. apply forget_send_wire.
  - split; [| reflexivity].
    change (stream_run rt t [t1] st)
      with (interval_callback rt t1 t (mkStream 0 true)
              (forget (sendNotification rt t (logging_message "SSE Connection established") st))).
    rewrite callback_first. cbn [snd].
    rewrite !forget_send_wire, <- app_assoc. reflexivity.
  - rewrite stream_run_two. cbn [fst snd]. split; [| reflexivity].
    rewrite !forget_send_wire, <- !app_assoc. reflexivity.
Qed.

Example stream_run_five_firings :
  map snd (wire (snd (stream_run Samples.flaky 7
                        ["09:00:01"; "09:00:02"; "09:00:03"; "09:00:04"; "09:00:05"]
                        MCPServer)))
  = [established; periodic "1" "09:00:01"; periodic "2" "09:00:02"; complete].
Proof. vm_compute. reflexivity. Qed.

End NotifySpec.

(** ** Properties of the registry along the runs of the server *)
Module RegistrySpec.
Import Uuid Server.

Section WithRuntime.
Context (rt : Runtime).

(** A broadcast sends to each target once, in order, and touches nothing else. *)
Lemma broadcast_effect (n : Notification) (targets : list transport) (st : state) :
  let st' := fold_left (fun st t => forget (sendNotification rt t n st)) targets st in
  wire st' = (wire st ++ map (fun t => (t, with_jsonrpc n "2.0")) targets)%list
  ∧ transports st' = transports st ∧ constructed st' = constructed st
  ∧ uuid_draws st' = uuid_draws st ∧ list_tools_handler st' = list_tools_handler st
  ∧ toolInterval st' = toolInterval st.
Proof.
  revert st. induction targets as [| t targets IH]; intros st; cbn [fold_left map].
  - rewrite app_nil_r. repeat split; reflexivity.
  - destruct (IH (forget (sendNotification rt t n st))) as (Hw & Ht & Hc & Hu & Hl & Hi).
    destruct (NotifySpec.forget_send_frame rt t n st _ eq_refl)
      as (Ht' & Hc' & Hu' & Hl' & _ & Hi' & _).
    cbn zeta in *. rewrite Hw, Ht, Hc, Hu, Hl, Hi, NotifySpec.forget_send_wire, <- app_assoc.
    repeat split; assumption.
Qed.

Lemma interval_fires_frame now t s st :
  transports (snd (interval_fires rt now t s st)) = transports st
  ∧ constructed (snd (interval_fires rt now t s st)) = constructed st
  ∧ uuid_draws (snd (interval_fires rt now t s st)) = uuid_draws st.
Proof.
  unfold interval_fires. destruct (interval s); [| repeat split; reflexivity].
  unfold interval_callback.
  set (st1 := forget (sendNotification rt t _ st)).
  destruct (NotifySpec.forget_send_frame rt _ _ st st1 eq_refl) as (Ht & Hc & Hu & _).
  destruct (S (messageCount s) =? 2)%nat; cbn [snd]; [| repeat split; assumption].
  set (st2 := forget (sendNotification rt t _ st1)).
  destruct (NotifySpec.forget_send_frame rt _ _ st1 st2 eq_refl) as (Ht' & Hc' & Hu' & _).
  repeat split; congruence.
Qed.

Lemma handleGetRequest_registry sessionId sdk st :
  registry_step rt st (snd (handleGetRequest rt sessionId sdk st)).
Proof.
  unfold handleGetRequest.
  destruct (resolve st sessionId) as [found |].
  - destruct (handleRequest found sdk) as [t | e]; cbn [snd].
    + unfold streamMessages.
      set (st1 := forget (sendNotification rt t _ st)).
      destruct (NotifySpec.forget_send_frame rt _ _ st st1 eq_refl) as (Ht & Hc & Hu & _).
      apply registry_same; simpl; rewrite ?Ht, ?Hc, ?Hu; (reflexivity || lia).
    + apply registry_same; (reflexivity || lia).
  - apply registry_same; simpl; (reflexivity || lia).
Qed.

Lemma handlePostRequest_registry sessionId body sdk st :
  registry_step rt st (snd (handlePostRequest rt sessionId body sdk st)).
Proof.
  unfold handlePostRequest, internal_error, bad_request, createErrorResponse,
    draw_uuid, console_error.
  repeat case_match; simplify_eq; cbn [snd];
    first [ apply registry_same; simpl; (reflexivity || lia)
          | apply registry_stored; simpl; reflexivity ].
Qed.

Lemma settle_frame r :
  transports (settle r) = transports (snd r) ∧ constructed (settle r) = constructed (snd r)
  ∧ uuid_draws (settle r) = uuid_draws (snd r).
Proof. destruct r as [[? | ?] ?]; repeat split; reflexivity. Qed.

Lemma registry_step_eq st st1 st2 :
  transports st2 = transports st1 → constructed st2 = constructed st1 →
  uuid_draws st2 = uuid_draws st1 →
  registry_step rt st st1 → registry_step rt st st2.
Proof.
  intros Ht Hc Hu [? ? ? | ? ? ?]; [apply registry_same | apply registry_stored]; congruence.
Qed.

Lemma step_registry st ev : registry_step rt st (step rt st ev).
Proof.
  destruct ev as [sessionId sdk | sessionId body sdk | | i now |]; cbn [step];
    [| | | | apply registry_same; (reflexivity || lia)].
  - destruct (settle_frame (handleGetRequest rt sessionId sdk st)) as (Ht & Hc & Hu).
    eapply registry_step_eq; eauto using handleGetRequest_registry.
  - destruct (settle_frame (handlePostRequest rt sessionId body sdk st)) as (Ht & Hc & Hu).
    eapply registry_step_eq; eauto using handlePostRequest_registry.
  - destruct (toolInterval st); [| apply registry_same; (reflexivity || lia)].
    unfold toolInterval_callback.
    destruct (broadcast_effect tool_list_changed (Object_values (setToolSchema st))
                (setToolSchema st)) as (_ & Ht & Hc & Hu & _).
    cbn zeta in *. apply registry_same; rewrite ?Ht, ?Hc, ?Hu; simpl; (reflexivity || lia).
  - destruct (streams st !! i) as [[t s] |] eqn:E; [| apply registry_same; (reflexivity || lia)].
    destruct (interval_fires_frame now t s st) as (Ht & Hc & Hu).
    destruct (interval_fires rt now t s st) as [s' st'].
    cbn [snd] in *. apply registry_same; simpl; rewrite ?Ht, ?Hc, ?Hu; (reflexivity || lia).
Qed.

Lemma registry_ok_init : registry_ok rt MCPServer.
Proof.
  split; simpl; intros *; rewrite lookup_empty; discriminate.
Qed.

Lemma registry_ok_step st st' :
  registry_ok rt st → registry_step rt st st' → registry_ok rt st'.
Proof.
  intros [Hc Ho Hd] [Ht Hle Hdle | Ht Hcs Hds].
  - split; rewrite Ht.
    + intros k t H. specialize (Hc k t H). lia.
    + exact Ho.
    + intros k t H. destruct (Hd k t H) as (i & Hi & ->). exists i. split; [lia | reflexivity].
  - split; rewrite Ht.
    + intros k t H. rewrite Hcs. apply lookup_insert_Some in H as [[_ <-] | [_ H]]; [lia |].
      specialize (Hc k t H). lia.
    + intros k1 k2 t H1 H2.
      apply lookup_insert_Some in H1 as [[<- <-] | [N1 H1]];
        apply lookup_insert_Some in H2 as [[<- E] | [N2 H2]]; try reflexivity.
      * specialize (Hc k2 _ H2). lia.
      * subst t. specialize (Hc k1 _ H1). lia.
      * eauto.
    + intros k t H. rewrite Hds. apply lookup_insert_Some in H as [[<- _] | [_ H]].
      * exists (uuid_draws st). split; [lia | reflexivity].
      * destruct (Hd k t H) as (i & Hi & ->). exists i. split; [lia | reflexivity].
Qed.

Lemma run_snoc events ev st : run rt (events ++ [ev]) st = step rt (run rt events st) ev.
Proof. unfold run. rewrite fold_left_app. reflexivity. Qed.

(** The invariant holds in every state reached from a state where it holds,
    and so in every state reached from a fresh server. *)
Lemma registry_ok_run events st : registry_ok rt st → registry_ok rt (run rt events st).
Proof.
  revert st. induction events as [| ev events IH]; intros st Hok; [exact Hok |].
  apply IH. eapply registry_ok_step; eauto using step_registry.
Qed.

Lemma registry_step_counters st st' :
  registry_step rt st st' →
  (constructed st ≤ constructed st')%nat ∧ (uuid_draws st ≤ uuid_draws st')%nat.
Proof. intros [? ? ? | ? ? ?]; lia. Qed.

Lemma run_counters events st :
  (constructed st ≤ constructed (run rt events st))%nat
  ∧ (uuid_draws st ≤ uuid_draws (run rt events st))%nat.
Proof.
  revert st. induction events as [| ev events IH]; intros st; [split; reflexivity |].
  cbn [run fold_left]. fold (run rt events (step rt st ev)).
  destruct (IH (step rt st ev)) as [Hc Hu].
  destruct (registry_step_counters st _ (step_registry st ev)). lia.
Qed.

(** A session stays bound to its channel for as long as the generator does
    not draw its identifier again. *)
Lemma run_keeps_session events st k t :
  transports st !! k = Some t →
  (∀ i, (uuid_draws st ≤ i)%nat → i < uuid_draws (run rt events st) → drawn rt i ≠ k) →
  transports (run rt events st) !! k = Some t.
Proof.
  revert st. induction events as [| ev events IH]; intros st Hk Hfresh; [exact Hk |].
  cbn [run fold_left] in *. fold (run rt events (step rt st ev)) in *.
  pose proof (step_registry st ev) as Hstep.
  destruct (registry_step_counters _ _ Hstep) as [_ Hu].
  destruct (run_counters events (step rt st ev)) as [_ Hu'].
  apply IH.
  - destruct Hstep as [Ht _ _ | Ht _ Hds]; rewrite Ht; [exact Hk |].
    rewrite lookup_insert_ne; [exact Hk |].
    apply Hfresh; lia.
  - intros i Hi Hi'. apply Hfresh; lia.
Qed.

(** Nothing ever leaves the registry. *)
Lemma run_keeps_ids events st k :
  is_Some (transports st !! k) → is_Some (transports (run rt events st) !! k).
Proof.
  revert st. induction events as [| ev events IH]; intros st Hk; [exact Hk |].
  apply IH. destruct (step_registry st ev) as [Ht _ _ | Ht _ _]; rewrite Ht; [exact Hk |].
  rewrite lookup_insert_is_Some. destruct (decide (drawn rt (uuid_draws st) = k)); auto.
Qed.

End WithRuntime.
End RegistrySpec.

(** ** Properties of the dispatcher and of the catalog refresh *)
Module DispatchSpec.
Import Uuid Server RegistrySpec.

Section WithRuntime.
Context (rt : Runtime).

Lemma present_drawn n : present (Some (drawn rt n)) = true.
Proof.
  unfold present, drawn.
  destruct (String.eqb_spec (randomUUID (entropy rt n)) ""); [| reflexivity].
  exfalso. eapply UuidSpec.randomUUID_nonempty; eauto.
Qed.

(** Establish, when the SDK accepts the initialize call. *)
Lemma post_establish st body sdk :
  isInitializeRequest rt body = true → accepts sdk →
  handlePostRequest rt None body sdk st =
    (Normal (ByTransport (constructed st)),
     with_transports (<[drawn rt (uuid_draws st) := constructed st]> (transports st))
       (with_uuid_draws (S (uuid_draws st)) (with_constructed (S (constructed st)) st))).
Proof.
  intros Hinit [Hconn Hhandle]. unfold handlePostRequest.
  cbn [resolve present negb andb]. rewrite Hinit, Hconn, Hhandle.
  unfold draw_uuid. cbn [uuid_draws with_constructed].
  fold (drawn rt (uuid_draws st)). rewrite present_drawn. reflexivity.
Qed.

(** Continue, when the SDK handles the request. *)
Lemma post_continue st k t body sdk b :
  k ≠ "" → transports st !! k = Some t → on_handle sdk = Handled b →
  handlePostRequest rt (Some k) body sdk st = (Normal (ByTransport t), st).
Proof.
  intros Hk Ht Hhandle. unfold handlePostRequest, resolve, present, lookup_transport.
  destruct (String.eqb_spec k ""); [contradiction |]. cbn [negb].
  rewrite Ht. unfold handleRequest. rewrite Hhandle. reflexivity.
Qed.

Lemma lookup_transport_stored st k t :
  transports st !! k = Some t → lookup_transport st k = Some (Channel t).
Proof. intros H. unfold lookup_transport. rewrite H. reflexivity. Qed.

(** An identifier that differs from all earlier draws is not in the registry. *)
Lemma lookup_transport_fresh st :
  registry_ok rt st → distinct_draws rt (S (uuid_draws st)) →
  lookup_transport st (drawn rt (uuid_draws st)) = None.
Proof.
  intros Hok Hdistinct. unfold lookup_transport.
  destruct (transports st !! drawn rt (uuid_draws st)) as [t |] eqn:E.
  - destruct (stored_drawn rt st Hok _ _ E) as (i & Hi & Heq).
    exfalso. apply (Hdistinct i (uuid_draws st)); [lia | lia | congruence].
  - rewrite bool_decide_eq_false_2; [reflexivity |].
    apply UuidSpec.randomUUID_not_inherited.
Qed.

Lemma run_app events1 events2 st :
  run rt (events1 ++ events2) st = run rt events2 (run rt events1 st).
Proof. unfold run. apply fold_left_app. Qed.

End WithRuntime.

(** C4 (as stated) fails: nothing in the server compares a new
    identifier with the registry. With a generator that repeats itself, the
    second initialize call gets the session id of the first, an id that is in
    the registry already, and the first session's channel is replaced. *)
Lemma repeated_draw_repeats_session_id :
  let sid := "00000000-0000-4000-8000-000000000000" in
  let first :=
    handlePostRequest Samples.repeating None Samples.initialize Samples.accepting MCPServer in
  let second :=
    handlePostRequest Samples.repeating None Samples.initialize Samples.accepting (snd first) in
  isInitializeRequest Samples.repeating Samples.initialize = true
  ∧ fst first = Normal (ByTransport 0)
  ∧ transports (snd first) !! sid = Some 0
  ∧ drawn Samples.repeating (uuid_draws (snd first)) = sid
  ∧ fst second = Normal (ByTransport 1)
  ∧ transports (snd second) !! sid = Some 1
  ∧ size (transports (snd second)) = 1.
Proof. vm_compute. split_and!; reflexivity. Qed.

(** C4 (amended): when the generator does not repeat itself, an initialize call
    without session id that the SDK accepts creates a session under an
    identifier that was in the registry in no earlier state; a later request
    carrying that identifier is forwarded to the session's channel; and a
    second such call, after any events in between, gets another identifier
    and another channel while the first session stays as it was. *)
Theorem establish_creates_fresh_session (rt : Runtime) (before between : list event)
    (body1 body2 : jsval) (sdk1 sdk2 : Sdk) :
  let st0 := run rt before MCPServer in
  let sid1 := drawn rt (uuid_draws st0) in
  let st1 := snd (handlePostRequest rt None body1 sdk1 st0) in
  let st2 := run rt between st1 in
  let sid2 := drawn rt (uuid_draws st2) in
  let st3 := snd (handlePostRequest rt None body2 sdk2 st2) in
  isInitializeRequest rt body1 = true → accepts sdk1 →
  isInitializeRequest rt body2 = true → accepts sdk2 →
  distinct_draws rt (S (uuid_draws st2)) →
  (∀ n, lookup_transport (run rt (take n before) MCPServer) sid1 = None)
  ∧ fst (handlePostRequest rt None body1 sdk1 st0) = Normal (ByTransport (constructed st0))
  ∧ lookup_transport st1 sid1 = Some (Channel (constructed st0))
  ∧ (∀ body sdk b, on_handle sdk = Handled b →
       handlePostRequest rt (Some sid1) body sdk st1
       = (Normal (ByTransport (constructed st0)), st1))
  ∧ sid1 ≠ sid2
  ∧ lookup_transport st3 sid1 = Some (Channel (constructed st0))
  ∧ lookup_transport st3 sid2 = Some (Channel (constructed st2))
  ∧ constructed st0 ≠ constructed st2.
Proof.
  intros st0 sid1 st1 st2 sid2 st3 Hinit1 Hacc1 Hinit2 Hacc2 Hdistinct.
  pose proof (registry_ok_run rt before _ (registry_ok_init rt)) as Hok0. fold st0 in Hok0.
  assert (Hst1 : handlePostRequest rt None body1 sdk1 st0 = (Normal (ByTransport (constructed st0)), st1)).
  { subst st1. rewrite (post_establish rt st0 body1 sdk1 Hinit1 Hacc1). reflexivity. }
  assert (Et1 : transports st1 = <[sid1 := constructed st0]> (transports st0)).
  { subst st1. rewrite (post_establish rt st0 body1 sdk1 Hinit1 Hacc1). reflexivity. }
  assert (Eu1 : uuid_draws st1 = S (uuid_draws st0)).
  { subst st1. rewrite (post_establish rt st0 body1 sdk1 Hinit1 Hacc1). reflexivity. }
  assert (Ec1 : constructed st1 = S (constructed st0)).
  { subst st1. rewrite (post_establish rt st0 body1 sdk1 Hinit1 Hacc1). reflexivity. }
  destruct (run_counters rt between st1) as [Hc12 Hu12]. fold st2 in Hc12, Hu12.
  assert (Hd0 : distinct_draws rt (S (uuid_draws st0))).
  { intros i j Hij Hj. apply Hdistinct; lia. }
  assert (Hfresh0 : lookup_transport st0 sid1 = None)
    by (apply lookup_transport_fresh; assumption).
  assert (Hsid : sid1 ≠ sid2).
  { apply Hdistinct; lia. }
  assert (Hk1 : transports st1 !! sid1 = Some (constructed st0)).
  { rewrite Et1. apply lookup_insert_eq. }
  assert (Hk2 : transports st2 !! sid1 = Some (constructed st0)).
  { subst st2. apply run_keeps_session; [exact Hk1 |].
    intros i Hi Hi' Heq. apply (Hdistinct (uuid_draws st0) i); [lia | lia |].
    symmetry. exact Heq. }
  assert (Et3 : transports st3 = <[sid2 := constructed st2]> (transports st2)).
  { subst st3. rewrite (post_establish rt st2 body2 sdk2 Hinit2 Hacc2). reflexivity. }
  split_and!.
  - intros n.
    destruct (lookup_transport (run rt (take n before) MCPServer) sid1) as [found |] eqn:E;
      [| reflexivity].
    exfalso. unfold lookup_transport in E, Hfresh0.
    destruct (transports st0 !! sid1) eqn:E0; [discriminate |].
    destruct (transports (run rt (take n before) MCPServer) !! sid1) as [t |] eqn:En.
    + assert (Hsome : is_Some (transports st0 !! sid1)).
      { subst st0. rewrite <- (take_drop n before) at 1. rewrite run_app.
        apply run_keeps_ids. rewrite En. eauto. }
      rewrite E0 in Hsome. destruct Hsome as [? ?]. discriminate.
    + rewrite E in Hfresh0. discriminate.
  - rewrite Hst1. reflexivity.
  - apply lookup_transport_stored. exact Hk1.
  - intros body sdk b Hb.
    apply (post_continue rt st1 sid1 (constructed st0) body sdk b);
      [apply UuidSpec.randomUUID_nonempty | exact Hk1 | exact Hb].
  - exact Hsid.
  - apply lookup_transport_stored. rewrite Et3, lookup_insert_ne by congruence. exact Hk2.
  - apply lookup_transport_stored. rewrite Et3. apply lookup_insert_eq.
  - lia.
Qed.

Lemma steady_distinct_3 : distinct_draws Samples.steady 3.
Proof.
  intros i j Hij Hj.
  destruct i as [| [| [| i]]], j as [| [| [| j]]]; try lia; vm_compute; discriminate.
Qed.

Lemma establish_creates_fresh_session_witness :
  let events := [POST None Samples.initialize Samples.accepting;
                 POST (Some "stale") Samples.tools_list Samples.accepting;
                 POST None Samples.initialize Samples.accepting] in
  drawn Samples.steady 0 ≠ drawn Samples.steady 2
  ∧ lookup_transport (run Samples.steady events MCPServer) (drawn Samples.steady 0)
    = Some (Channel 0)
  ∧ lookup_transport (run Samples.steady events MCPServer) (drawn Samples.steady 2)
    = Some (Channel 1).
Proof.
  cbv zeta.
  pose proof (establish_creates_fresh_session Samples.steady []
                [POST (Some "stale") Samples.tools_list Samples.accepting]
                Samples.initialize Samples.initialize
                Samples.accepting Samples.accepting) as H.
  cbv zeta in H.
  destruct H as (_ & _ & _ & _ & Hids & Hfirst & Hsecond & _).
  - reflexivity.
  - split; reflexivity.
  - reflexivity.
  - split; reflexivity.
  - exact steady_distinct_3.
  - split_and!; [exact Hids | |].
    + vm_compute in Hfirst. vm_compute. exact Hfirst.
    + vm_compute in Hsecond. vm_compute. exact Hsecond.
Defined.

(** C8 (as stated) fails: with a generator that repeats an identifier, the
    second registration under the identifier is not rejected; the request is
    answered as any other Establish and the stored channel is replaced. *)
Lemma second_registration_replaces :
  let st1 := run Samples.repeating [POST None Samples.initialize Samples.accepting] MCPServer in
  let second := handlePostRequest Samples.repeating None Samples.initialize Samples.accepting st1 in
  drawn Samples.repeating (uuid_draws st1) = drawn Samples.repeating 0
  ∧ lookup_transport st1 (drawn Samples.repeating 0) = Some (Channel 0)
  ∧ fst second = Normal (ByTransport 1)
  ∧ lookup_transport (snd second) (drawn Samples.repeating 0) = Some (Channel 1).
Proof. vm_compute. repeat split; reflexivity. Qed.

(** C8 (amended): the registry holds at most one channel per session id, and
    registration is an assignment: an Establish whose identifier is already
    registered is answered like any other, and afterwards the identifier
    resolves to the newly constructed channel, which is not the one stored
    before; all other sessions are as they were. *)
Theorem establish_replaces (rt : Runtime) (events : list event) (body : jsval) (sdk : Sdk)
    (old : transport) :
  let st := run rt events MCPServer in
  let k := drawn rt (uuid_draws st) in
  let r := handlePostRequest rt None body sdk st in
  isInitializeRequest rt body = true → accepts sdk →
  transports st !! k = Some old →
  fst r = Normal (ByTransport (constructed st))
  ∧ lookup_transport (snd r) k = Some (Channel (constructed st))
  ∧ constructed st ≠ old
  ∧ (∀ k', k' ≠ k → transports (snd r) !! k' = transports st !! k')
  ∧ (∀ k' t1 t2, transports (snd r) !! k' = Some t1 → transports (snd r) !! k' = Some t2 → t1 = t2).
Proof.
  intros st k r Hinit Hacc Hold. subst r.
  rewrite (post_establish rt st body sdk Hinit Hacc). cbn [fst snd].
  pose proof (registry_ok_run rt events _ (registry_ok_init rt)) as Hok. fold st in Hok.
  split_and!.
  - reflexivity.
  - apply lookup_transport_stored. apply lookup_insert_eq.
  - pose proof (stored_constructed rt st Hok k old Hold). lia.
  - intros k' Hk'. cbn [transports with_transports]. apply lookup_insert_ne.
    intros E. apply Hk'. symmetry. exact E.
  - intros k' t1 t2 H1 H2. congruence.
Qed.

Lemma establish_replaces_witness :
  lookup_transport
    (snd (handlePostRequest Samples.repeating None Samples.initialize Samples.accepting
            (run Samples.repeating [POST None Samples.initialize Samples.accepting] MCPServer)))
    (drawn Samples.repeating 1) = Some (Channel 1).
Proof.
  pose proof (establish_replaces Samples.repeating
                [POST None Samples.initialize Samples.accepting]
                Samples.initialize Samples.accepting 0) as H.
  cbv zeta in H.
  destruct H as (_ & H & _).
  - reflexivity.
  - split; reflexivity.
  - vm_compute. reflexivity.
  - exact H.
Defined.

(** C7: in every state the server reaches, a run of the catalog timer's
    callback leaves installed a list-tools handler whose answer holds the
    [get_database_table_ddl] descriptor, and calls [send] with the
    "tool list changed" notification exactly once for every channel in the
    registry and for nothing else; a send that is rejected does not keep
    the others from being made. *)
Theorem catalog_refresh_notifies (rt : Runtime) (events : list event) :
  let st := run rt events MCPServer in
  let st' := toolInterval_callback rt st in
  list_tools_handler st' = Some Tools.listTools
  ∧ (∃ tool, tool ∈ Tools.listTools ∧ Tools.name tool = Tools.getDDLToolName)
  ∧ ∃ targets,
      wire st' = (wire st ++ map (fun t => (t, with_jsonrpc tool_list_changed "2.0")) targets)%list
      ∧ NoDup targets
      ∧ (∀ t, t ∈ targets ↔ ∃ k, transports st !! k = Some t)
      ∧ transports st' = transports st.
Proof.
  intros st st'. subst st'. unfold toolInterval_callback.
  destruct (broadcast_effect rt tool_list_changed (Object_values (setToolSchema st))
              (setToolSchema st)) as (Hw & Ht & _ & _ & Hl & _).
  cbn zeta in *.
  pose proof (registry_ok_run rt events _ (registry_ok_init rt)) as Hok. fold st in Hok.
  split_and!.
  - rewrite Hl. reflexivity.
  - exists Tools.getDDLTool. split; [apply list_elem_of_here | reflexivity].
  - exists (Object_values st). split_and!.
    + exact Hw.
    + unfold Object_values. apply NoDup_fmap_2_strong; [| apply NoDup_map_to_list].
      intros [k1 t1] [k2 t2] H1 H2 Heq. cbn in Heq. subst t2.
      apply elem_of_map_to_list in H1, H2.
      rewrite (stored_once rt st Hok k1 k2 t1 H1 H2). reflexivity.
    + intros t. unfold Object_values. rewrite list_elem_of_fmap. split.
      * intros [[k t'] [-> H]]. exists k. apply elem_of_map_to_list in H. exact H.
      * intros [k H]. exists (k, t). split; [reflexivity |].
        apply elem_of_map_to_list. exact H.
    + exact Ht.
Qed.

(** With two sessions open and every other send rejected, a tick still
    calls [send] for both channels; the rejection stays unhandled. *)
Example catalog_refresh_flaky :
  let st := run Samples.flaky [POST None Samples.initialize Samples.accepting;
                               POST None Samples.initialize Samples.accepting] MCPServer in
  let st' := step Samples.flaky st ToolTimer in
  length (wire st') = 2 ∧ unhandled st' = [new_Error "Not connected"].
Proof. vm_compute. split; reflexivity. Qed.

(** Whatever fails inside the [try] of [handlePostRequest] is logged and
    answered with the 500 envelope. *)
Lemma handlePostRequest_catches (rt : Runtime) sessionId body sdk st :
  ∃ r, fst (handlePostRequest rt sessionId body sdk st) = Normal r.
Proof.
  unfold handlePostRequest, internal_error, bad_request, createErrorResponse, draw_uuid.
  repeat case_match; simplify_eq; cbn [fst]; eauto.
Qed.

Lemma internal_error_reply (rt : Runtime) e st :
  internal_error rt e st =
    (Normal (Json 500 (error_envelope "Internal server error." (drawn rt (uuid_draws st)))),
     with_uuid_draws (S (uuid_draws st))
       (with_console (console st ++ [("Error handling MCP request:", e)]) st)).
Proof. reflexivity. Qed.

(** [handleGetRequest] has no [try]: what [transport.handleRequest] throws
    rejects the handler's promise, nothing is logged and nothing is answered. *)
Lemma handleGetRequest_escapes (rt : Runtime) sessionId found sdk e st :
  resolve st sessionId = Some found → handleRequest found sdk = Throw e →
  handleGetRequest rt sessionId sdk st = (Throw e, st).
Proof. intros Hr He. unfold handleGetRequest. rewrite Hr, He. reflexivity. Qed.

(** C2 fails for GET: a session id that names a member inherited from
    [Object.prototype] passes the guard and the call of [handleRequest] on it
    throws; so does a registered channel whose [handleRequest] throws. In
    both cases the exception leaves [handleGetRequest] with no reply and no
    log line, where [handlePostRequest] on the same input logs it and
    answers with the 500 envelope. *)
Theorem handleGetRequest_lets_errors_escape :
  let st1 := run Samples.steady [POST None Samples.initialize Samples.accepting] MCPServer in
  let broken := mkSdk None (HandleThrows (new_Error "write after end")) in
  handleGetRequest Samples.steady (Some "constructor") Samples.accepting MCPServer
    = (Throw not_a_function, MCPServer)
  ∧ handleGetRequest Samples.steady (Some (drawn Samples.steady 0)) broken st1
    = (Throw (new_Error "write after end"), st1)
  ∧ fst (handlePostRequest Samples.steady (Some "constructor") Samples.tools_list
           Samples.accepting MCPServer)
    = Normal (Json 500 (error_envelope "Internal server error." (drawn Samples.steady 0)))
  ∧ fst (handlePostRequest Samples.steady (Some (drawn Samples.steady 0)) Samples.tools_list
           broken st1)
    = Normal (Json 500 (error_envelope "Internal server error." (drawn Samples.steady 1))).
Proof. vm_compute. repeat split; reflexivity. Qed.

(** C5 fails for the session ids that name a member inherited from
    [Object.prototype]: no session is registered under "valueOf", in a fresh
    server or ever, yet the request is not answered with status 400; the GET
    handler throws and the POST handler answers 500. *)
Theorem unregistered_id_not_bad_request :
  transports MCPServer !! "valueOf" = None
  ∧ isInitializeRequest Samples.steady Samples.tools_list = false
  ∧ handleGetRequest Samples.steady (Some "valueOf") Samples.accepting MCPServer
    = (Throw not_a_function, MCPServer)
  ∧ fst (handlePostRequest Samples.steady (Some "valueOf") Samples.tools_list
           Samples.accepting MCPServer)
    = Normal (Json 500 (error_envelope "Internal server error." (drawn Samples.steady 0))).
Proof. vm_compute. repeat split; reflexivity. Qed.

(** X25: when the guard [sessionId && this.transports[sessionId]] is
    falsy, that is when the header is absent or empty or names neither a
    stored session nor an inherited member, a GET, and a POST whose body is
    no initialize call, are answered with status 400 and the envelope with
    code -32000 and message "Bad Request: invalid session ID or method.". *)
Theorem unresolved_session_bad_request (rt : Runtime) (st : state)
    (sessionId : option string) (body : jsval) (sdk : Sdk) :
  resolve st sessionId = None →
  isInitializeRequest rt body = false →
  let answer :=
    (Normal (Json 400 (error_envelope "Bad Request: invalid session ID or method."
                         (drawn rt (uuid_draws st)))),
     with_uuid_draws (S (uuid_draws st)) st) in
  handleGetRequest rt sessionId sdk st = answer
  ∧ handlePostRequest rt sessionId body sdk st = answer.
Proof.
  intros Hr Hinit answer. subst answer.
  unfold handleGetRequest, handlePostRequest. rewrite Hr, Hinit, andb_false_r.
  split; reflexivity.
Qed.

Lemma unresolved_session_bad_request_witness :
  handleGetRequest Samples.steady (Some "no-such-session") Samples.accepting MCPServer
  = (Normal (Json 400 (error_envelope "Bad Request: invalid session ID or method."
                         (drawn Samples.steady 0))),
     with_uuid_draws 1 MCPServer)
  ∧ handlePostRequest Samples.steady (Some "no-such-session") Samples.tools_list
      Samples.accepting MCPServer
  = (Normal (Json 400 (error_envelope "Bad Request: invalid session ID or method."
                         (drawn Samples.steady 0))),
     with_uuid_draws 1 MCPServer).
Proof.
  apply (unresolved_session_bad_request Samples.steady MCPServer (Some "no-such-session")
           Samples.tools_list Samples.accepting); reflexivity.
Defined.

(** C9 (as stated) fails: a session id field that is present but empty
    is taken for no session id, and with an initialize body the request
    establishes a session. *)
Lemma empty_session_id_establishes :
  let r := handlePostRequest Samples.steady (Some "") Samples.initialize Samples.accepting
             MCPServer in
  isInitializeRequest Samples.steady Samples.initialize = true
  ∧ fst r = Normal (ByTransport 0)
  ∧ constructed (snd r) = 1
  ∧ transports (snd r) !! drawn Samples.steady 0 = Some 0.
Proof. vm_compute. repeat split; reflexivity. Qed.

(** C9 (amended): a POST that carries a non-empty session id which is
    stored for no session and names no member inherited from
    [Object.prototype] is answered with the Bad Request envelope whatever its
    body, an initialize call included; it constructs no transport and leaves
    the registry as it was. In any state, a transport is constructed only by
    a request whose session id is absent or empty and whose body is an
    initialize call, so a stale id never creates a session. *)
Theorem stale_session_never_establishes (rt : Runtime) (st : state) (k : string)
    (body : jsval) (sdk : Sdk) :
  k ≠ "" →
  transports st !! k = None →
  k ∉ Object_prototype_names →
  handlePostRequest rt (Some k) body sdk st =
    (Normal (Json 400 (error_envelope "Bad Request: invalid session ID or method."
                         (drawn rt (uuid_draws st)))),
     with_uuid_draws (S (uuid_draws st)) st)
  ∧ transports (snd (handlePostRequest rt (Some k) body sdk st)) = transports st
  ∧ constructed (snd (handlePostRequest rt (Some k) body sdk st)) = constructed st
  ∧ ∀ sessionId' body' sdk' st',
      constructed (snd (handlePostRequest rt sessionId' body' sdk' st')) ≠ constructed st' →
      (sessionId' = None ∨ sessionId' = Some "") ∧ isInitializeRequest rt body' = true.
Proof.
  intros Hk Hstored Hinherited.
  assert (Hpresent : present (Some k) = true).
  { unfold present. destruct (String.eqb_spec k ""); [contradiction | reflexivity]. }
  assert (Hlookup : lookup_transport st k = None).
  { unfold lookup_transport. rewrite Hstored.
    rewrite bool_decide_eq_false_2 by assumption. reflexivity. }
  assert (Hpost : handlePostRequest rt (Some k) body sdk st =
    (Normal (Json 400 (error_envelope "Bad Request: invalid session ID or method."
                         (drawn rt (uuid_draws st)))),
     with_uuid_draws (S (uuid_draws st)) st)).
  { unfold handlePostRequest, resolve. rewrite Hpresent, Hlookup. reflexivity. }
  rewrite Hpost. split_and!; try reflexivity.
  intros sessionId' body' sdk' st' Hnew.
  assert (Hgate : present sessionId' = false ∧ isInitializeRequest rt body' = true).
  { revert Hnew.
    unfold handlePostRequest, internal_error, bad_request, createErrorResponse, draw_uuid,
      console_error.
    destruct (present sessionId') eqn:Ep, (isInitializeRequest rt body') eqn:Ei;
      repeat case_match; simplify_eq; cbn; intros Hnew;
      try (exfalso; apply Hnew; reflexivity); split; reflexivity. }
  destruct Hgate as [Hp Hi]. split; [| exact Hi].
  destruct sessionId' as [k' |]; [| left; reflexivity].
  right. unfold present in Hp.
  destruct (String.eqb_spec k' ""); [subst k'; reflexivity | discriminate].
Qed.

Lemma stale_session_never_establishes_witness :
  handlePostRequest Samples.steady (Some "3f2b8c1e-stale") Samples.initialize
    Samples.accepting MCPServer =
    (Normal (Json 400 (error_envelope "Bad Request: invalid session ID or method."
                         (drawn Samples.steady 0))),
     with_uuid_draws 1 MCPServer).
Proof.
  refine (proj1 (stale_session_never_establishes Samples.steady MCPServer "3f2b8c1e-stale"
                   Samples.initialize Samples.accepting _ _ _)).
  - discriminate.
  - reflexivity.
  - unfold Object_prototype_names. intros H.
    repeat (apply elem_of_cons in H as [H | H]; [discriminate |]).
    by apply elem_of_nil in H.
Defined.

End DispatchSpec.

(** ** Further properties of the call-tool handler and of the DDL tool *)
Module ToolsMore.
Import Tools ToolsSpec.

Lemma string_app_assoc (a b c : string) : (a +:+ b) +:+ c = a +:+ (b +:+ c).
Proof.
  induction a as [| x a IH]; [reflexivity |].
  change (String x ((a +:+ b) +:+ c) = String x (a +:+ (b +:+ c))). f_equal. exact IH.
Qed.

Lemma supported_not_unsupported (s : string) : supported s → ¬ unsupported s.
Proof. intros [H | H] [N1 N2]; contradiction. Qed.

(** The rest of the handler once the database type is accepted. *)
Lemma handleGetDDLTool_supported w fields database_type connection_info table_name :
  ddl_fields fields database_type connection_info table_name →
  supported database_type →
  handleGetDDLTool w (JObject fields) =
    (conn ← connection w connection_info;
     if incomplete conn
     then mret {| content :=
       [text_of "Database connection info is incomplete. Please provide all required fields or set them in .env."] |}
     else
     let '(ddlRows, ddlError) :=
       match pg w conn table_name with
       | PgDone rows => (rows, JNull)
       | PgThrows rows err => (rows, describe err)
       end in
     if truthy ddlError
     then shown ← template w ddlError;
          mret {| content := [text_of ("Failed to retrieve DDL: " +:+ shown)] |}
     else
     dataDictionary ← data_dictionary w table_name ddlRows;
     mret {| content :=
       [text_of ("DDL (columns):" +:+ nl +:+ JSON_stringify w ddlRows);
        text_of ("Data Dictionary:" +:+ nl +:+ dataDictionary)] |}).
Proof.
  intros Hfields Hs. rewrite (handleGetDDLTool_typed w fields _ _ _ Hfields).
  rewrite decide_False by (apply supported_not_unsupported; assumption). reflexivity.
Qed.

(** X1: a request for any tool name other than [get_database_table_ddl]
    never yields a result and never reaches the executor: the handler throws,
    and what it throws is the same whatever the environment and the
    database are. *)
Theorem callTool_other_name_throws (w w' : Externals) (request : CallToolRequest) :
  params_name request ≠ getDDLToolName →
  is_Normal (callTool w request) = false
  ∧ callTool w request = callTool w' request.
Proof.
  intros Hname. unfold callTool.
  destruct request as [toolName [fields |]]; simpl in *; [| split; reflexivity].
  destruct (String.eqb toolName ""); simpl; [split; reflexivity |].
  rewrite bool_decide_eq_false_2 by assumption. split; reflexivity.
Qed.

Lemma callTool_other_name_throws_witness :
  is_Normal (callTool Samples.offline (mkCall "" (Some []))) = false
  ∧ callTool Samples.offline (mkCall "" (Some [])) = callTool Samples.online (mkCall "" (Some [])).
Proof.
  apply (callTool_other_name_throws Samples.offline Samples.online (mkCall "" (Some []))).
  simpl. discriminate.
Defined.

Lemma template_throws (w : Externals) (v : jsval) (e : Error) :
  template w v = Throw e → convertible v = false ∧ e = cannot_convert.
Proof.
  unfold template. destruct v; try discriminate;
    destruct (convertible _) eqn:E; try discriminate; intros [= <-]; split; reflexivity.
Qed.

Lemma data_dictionary_throws (w : Externals) (table_name : jsval) (rows : list Row) (e : Error) :
  data_dictionary w table_name rows = Throw e →
  convertible table_name = false ∧ e = cannot_convert.
Proof.
  unfold data_dictionary. destruct (template w table_name) as [shown | e'] eqn:Et.
  - cbn [mbind completion_bind]. destruct (length rows =? 0)%nat; discriminate.
  - cbn [mbind completion_bind]. intros [= <-]. eapply template_throws. exact Et.
Qed.

(** X2: called with an arguments object, the DDL tool throws in two
    situations only. One: the three parameters are truthy and
    [database_type] is not a string, so that it has no [toLowerCase]. Two:
    the database answered and [table_name] cannot be converted to a string
    for the heading of the data dictionary, which is built outside the [try].
    The error is the [TypeError] of that situation; on every other arguments
    object the handler returns a result. *)
Theorem callTool_ddl_throws_only_mistyped (w : Externals) (fields : list (string * jsval)) :
  match callTool w (call_ddl fields) with
  | Throw e =>
      (mistyped fields = true ∧ e = TypeError "database_type.toLowerCase is not a function")
      ∨ (mistyped fields = false
         ∧ convertible (own_property fields "table_name") = false
         ∧ e = cannot_convert)
  | Normal _ => mistyped fields = false
  end.
Proof.
  unfold call_ddl. rewrite callTool_dispatch by discriminate.
  rewrite bool_decide_eq_true_2 by reflexivity.
  unfold mistyped.
  destruct (truthy (own_property fields "database_type")) eqn:Hdt;
    [| unfold handleGetDDLTool; simpl get; cbn [mbind completion_bind];
       rewrite Hdt; reflexivity].
  destruct (truthy (own_property fields "connection_info")) eqn:Hci;
    [| unfold handleGetDDLTool; simpl get; cbn [mbind completion_bind];
       rewrite Hdt, Hci; reflexivity].
  destruct (truthy (own_property fields "table_name")) eqn:Htn;
    [| unfold handleGetDDLTool; simpl get; cbn [mbind completion_bind];
       rewrite Hdt, Hci, Htn; reflexivity].
  destruct (own_property fields "database_type") as [| | b | n | s | items | obj] eqn:Edt;
    try (cbn in Hdt; discriminate);
    try (unfold handleGetDDLTool; simpl get; cbn [mbind completion_bind];
         rewrite Edt, Hdt, Hci, Htn; left; split; reflexivity).
  assert (Hfields : ddl_fields fields s (own_property fields "connection_info")
                      (own_property fields "table_name")).
  { repeat split; try assumption. apply truthy_JString. exact Hdt. }
  rewrite (handleGetDDLTool_typed w fields _ _ _ Hfields).
  destruct (decide (unsupported s)); [reflexivity |].
  destruct (connection_truthy w _ Hci) as [conn ->]. cbn [mbind completion_bind].
  destruct (incomplete conn); [reflexivity |].
  assert (Hsuccess : ∀ rows,
    match (dataDictionary ← data_dictionary w (own_property fields "table_name") rows;
           mret {| content :=
             [text_of ("DDL (columns):" +:+ nl +:+ JSON_stringify w rows);
              text_of ("Data Dictionary:" +:+ nl +:+ dataDictionary)] |}) with
    | Throw e =>
        (true && true && true && negb (is_string (JString s)) = true
         ∧ e = TypeError "database_type.toLowerCase is not a function")
        ∨ (true && true && true && negb (is_string (JString s)) = false
           ∧ convertible (own_property fields "table_name") = false
           ∧ e = cannot_convert)
    | Normal _ => true && true && true && negb (is_string (JString s)) = false
    end).
  { intros rows.
    destruct (data_dictionary w (own_property fields "table_name") rows) as [d | e] eqn:Ed;
      cbn [mbind completion_bind]; [reflexivity |].
    right. split; [reflexivity |]. eapply data_dictionary_throws. exact Ed. }
  destruct (pg w conn _) as [rows | rows err]; cbn [truthy]; [apply Hsuccess |].
  unfold describe, or_else.
  destruct (truthy (JString (err_message err))) eqn:Em.
  - rewrite Em. reflexivity.
  - destruct (truthy (JString (Error_toString err))) eqn:Es; [reflexivity | apply Hsuccess].
Qed.

(** X3: every result of the call-tool handler has one or two content
    items, each of type "text". *)
Theorem callTool_result_shape (w : Externals) (request : CallToolRequest) (r : CallToolResult) :
  callTool w request = Normal r →
  (length (content r) = 1 ∨ length (content r) = 2)
  ∧ Forall (fun item => type item = "text") (content r).
Proof.
  unfold callTool, handleGetDDLTool, connection, data_dictionary, template.
  destruct request as [toolName [fields |]]; simpl; [| discriminate].
  unfold mbind, completion_bind, mret, completion_ret.
  intros H. repeat case_match; simplify_eq; simpl; split; auto.
Qed.

Lemma callTool_result_shape_witness :
  (length (content {| content :=
      [text_of "Unsupported database type: mysql. Only PostgreSQL is supported."] |}) = 1
   ∨ length (content {| content :=
      [text_of "Unsupported database type: mysql. Only PostgreSQL is supported."] |}) = 2)
  ∧ Forall (fun item => type item = "text")
      (content {| content :=
         [text_of "Unsupported database type: mysql. Only PostgreSQL is supported."] |}).
Proof.
  apply (callTool_result_shape Samples.offline
           (call_ddl (Samples.ddl_arguments "mysql" Samples.local_db))).
  reflexivity.
Defined.

(** The loop of the data dictionary adds one entry per row to what it
    has so far. *)
Lemma dictionary_line_entry (w : Externals) (acc : string) (row : Row) :
  dictionary_line acc row = acc +:+ dictionary_entry row.
Proof.
  unfold dictionary_line, dictionary_entry.
  destruct (character_maximum_length row) as [z |]; [destruct (z =? 0)%Z |];
    rewrite !string_app_assoc; reflexivity.
Qed.

Lemma fold_dictionary_line (w : Externals) (rows : list Row) (acc : string) :
  fold_left dictionary_line rows acc = acc +:+ dictionary_entries rows.
Proof.
  revert acc. induction rows as [| row rows IH]; intros acc; cbn [fold_left dictionary_entries fold_right].
  - induction acc as [| x acc IHacc]; [reflexivity |].
    change (String x acc = String x (acc +:+ "")). f_equal. exact IHacc.
  - rewrite IH, (dictionary_line_entry w), string_app_assoc. reflexivity.
Qed.

(** X4: the data dictionary is its heading, with the table name
    substituted, followed by one line per column, in the order of the rows:
    "- name: type", with the maximum length in parentheses when there is one
    and it is not zero; for a table without columns the heading is followed
    by "No columns found.". When the table name cannot be converted to a
    string, building the heading throws. *)
Theorem data_dictionary_entries (w : Externals) (table_name : jsval) (rows : list Row) :
  data_dictionary w table_name rows =
    (shown ← template w table_name;
     mret (("Table " +:+ dquote +:+ shown +:+ dquote +:+ " columns:" +:+ nl) +:+
           match rows with
           | [] => "No columns found."
           | _ => dictionary_entries rows
           end)).
Proof.
  unfold data_dictionary. destruct (template w table_name) as [shown | e]; [| reflexivity].
  cbn [mbind completion_bind]. destruct rows as [| row rows]; [reflexivity |].
  cbn [length Nat.eqb]. f_equal. apply (fold_dictionary_line w).
Qed.

Lemma template_unconvertible (w : Externals) (v : jsval) :
  convertible v = false → template w v = Throw cannot_convert.
Proof.
  intros Hc. unfold template. destruct v; try discriminate; rewrite Hc; reflexivity.
Qed.

(** X5: with a database type of the Postgres family, complete connection
    info and a database that answers, the tool returns two texts, the rows
    as JSON under "DDL (columns):" and the data dictionary under
    "Data Dictionary:", provided the table name can be converted to a string
    for the dictionary's heading; when it cannot, the handler throws the
    [TypeError] of the conversion. *)
Theorem callTool_ddl_success (w : Externals) (fields : list (string * jsval))
    (database_type : string) (connection_info table_name : jsval)
    (conn : DBConnectionInfo) (rows : list Row) :
  ddl_fields fields database_type connection_info table_name →
  supported database_type →
  connection w connection_info = Normal conn →
  incomplete conn = false →
  pg w conn table_name = PgDone rows →
  (∀ dictionary, data_dictionary w table_name rows = Normal dictionary →
     callTool w (call_ddl fields) =
       Normal {| content :=
         [text_of ("DDL (columns):" +:+ nl +:+ JSON_stringify w rows);
          text_of ("Data Dictionary:" +:+ nl +:+ dictionary)] |})
  ∧ (convertible table_name = false →
     callTool w (call_ddl fields) = Throw cannot_convert).
Proof.
  intros Hfields Hs Hconn Hinc Hpg.
  unfold call_ddl. rewrite callTool_dispatch by discriminate.
  rewrite bool_decide_eq_true_2 by reflexivity.
  rewrite (handleGetDDLTool_supported w fields _ _ _ Hfields Hs).
  rewrite Hconn. cbn [mbind completion_bind]. rewrite Hinc, Hpg. cbn [truthy].
  split.
  - intros dictionary ->. reflexivity.
  - intros Hc. unfold data_dictionary. rewrite (template_unconvertible w _ Hc). reflexivity.
Qed.

Lemma callTool_ddl_success_witness :
  callTool Samples.online (call_ddl (Samples.ddl_arguments "PostgreSQL" Samples.local_db)) =
    Normal {| content :=
      [text_of ("DDL (columns):" +:+ nl +:+ "[ 2 rows ]");
       text_of ("Data Dictionary:" +:+ nl +:+ "Table " +:+ dquote +:+ "items" +:+ dquote
                +:+ " columns:" +:+ nl
                +:+ "- id: integer" +:+ nl
                +:+ "- name: character varying(255)" +:+ nl)] |}.
Proof.
  refine (proj1 (callTool_ddl_success Samples.online
                   (Samples.ddl_arguments "PostgreSQL" Samples.local_db)
                   "PostgreSQL" Samples.local_db (JString "items")
                   (mkConn (JString "localhost") (JNumber (Num 5432)) (JString "steward")
                           (JString "secret") (JString "inventory"))
                   Samples.items_columns _ _ _ _ _) _ _).
  - repeat split; discriminate.
  - left. reflexivity.
  - reflexivity.
  - reflexivity.
  - reflexivity.
  - reflexivity.
Defined.

(** X6: the database type is compared without regard to letter case, and
    "postgres" is taken as "postgresql": with any spelling of either, the
    tool does what it does for "postgresql" with the same connection info
    and table name. *)
Theorem callTool_type_case_insensitive (w : Externals) (fields : list (string * jsval))
    (database_type : string) (connection_info table_name : jsval) :
  ddl_fields fields database_type connection_info table_name →
  supported database_type →
  callTool w (call_ddl fields) =
    callTool w (call_ddl [("database_type", JString "postgresql");
                          ("connection_info", connection_info);
                          ("table_name", table_name)]).
Proof.
  intros Hfields Hs.
  assert (Hcanon : ddl_fields [("database_type", JString "postgresql");
                               ("connection_info", connection_info);
                               ("table_name", table_name)]
                     "postgresql" connection_info table_name).
  { destruct Hfields as (_ & _ & _ & Hci & _ & Htn).
    repeat split; try assumption; discriminate. }
  unfold call_ddl. rewrite !callTool_dispatch by discriminate.
  rewrite bool_decide_eq_true_2 by reflexivity.
  rewrite (handleGetDDLTool_supported w fields _ _ _ Hfields Hs).
  rewrite (handleGetDDLTool_supported w _ _ _ _ Hcanon (or_introl eq_refl)).
  reflexivity.
Qed.

Lemma callTool_type_case_insensitive_witness :
  callTool Samples.online (call_ddl (Samples.ddl_arguments "POSTGRES" Samples.local_db)) =
  callTool Samples.online (call_ddl (Samples.ddl_arguments "postgresql" Samples.local_db)).
Proof.
  apply (callTool_type_case_insensitive Samples.online
           (Samples.ddl_arguments "POSTGRES" Samples.local_db)
           "POSTGRES" Samples.local_db (JString "items")).
  - repeat split; discriminate.
  - right. reflexivity.
Defined.

(** What [connection] computes from connection info that is truthy. *)
Lemma connection_fields (w : Externals) (connection_info : jsval) :
  truthy connection_info = true →
  ∃ ci_host ci_port ci_user ci_password ci_database,
    get connection_info "host" = Normal ci_host
    ∧ get connection_info "port" = Normal ci_port
    ∧ get connection_info "user" = Normal ci_user
    ∧ get connection_info "password" = Normal ci_password
    ∧ get connection_info "database" = Normal ci_database
    ∧ connection w connection_info =
        Normal {| host := or_else ci_host (env_var (PGHOST (env w)));
                  port := or_else ci_port (JNumber (ToNumber w (PGPORT (env w))));
                  user := or_else ci_user (env_var (PGUSER (env w)));
                  password := or_else ci_password (env_var (PGPASSWORD (env w)));
                  database := or_else ci_database (env_var (PGDATABASE (env w))) |}.
Proof.
  intros Ht. unfold connection.
  destruct connection_info; simpl in Ht |- *; try discriminate;
    do 5 eexists; repeat split; reflexivity.
Qed.

(** X7: connection info that gives all five fields makes the environment
    irrelevant: the tool answers the same whatever [process.env] holds. *)
Theorem callTool_full_info_ignores_env (w : Externals) (e : ProcessEnv)
    (number : option string -> jsnum) (fields : list (string * jsval))
    (database_type : string) (connection_info table_name : jsval) :
  ddl_fields fields database_type connection_info table_name →
  fully_specified connection_info = true →
  callTool (with_environment w e number) (call_ddl fields) = callTool w (call_ddl fields).
Proof.
  intros Hfields Hfull.
  unfold call_ddl. rewrite !callTool_dispatch by discriminate.
  rewrite bool_decide_eq_true_2 by reflexivity.
  rewrite !(handleGetDDLTool_typed _ fields _ _ _ Hfields).
  destruct (decide (unsupported database_type)); [reflexivity |].
  destruct connection_info as [| | | | | | obj]; try discriminate.
  unfold fully_specified in Hfull.
  repeat (apply andb_true_iff in Hfull as [Hfull ?]).
  unfold connection. simpl get. cbn [mbind completion_bind mret completion_ret].
  unfold or_else.
  repeat match goal with H : truthy _ = true |- _ => rewrite H; clear H end.
  reflexivity.
Qed.

Lemma callTool_full_info_ignores_env_witness :
  callTool (with_environment Samples.online (mkEnv None None None None None) (fun _ => NaN))
           (call_ddl (Samples.ddl_arguments "postgres" Samples.local_db))
  = callTool Samples.online (call_ddl (Samples.ddl_arguments "postgres" Samples.local_db)).
Proof.
  apply (callTool_full_info_ignores_env Samples.online (mkEnv None None None None None)
           (fun _ => NaN) (Samples.ddl_arguments "postgres" Samples.local_db)
           "postgres" Samples.local_db (JString "items")).
  - repeat split; discriminate.
  - reflexivity.
Defined.

(** X8: when connection info lacks the host, the user, the password or the
    database (or gives a falsy value) and the variable it falls back to is
    unset or empty, the tool reports incomplete connection info. *)
Theorem callTool_missing_everywhere (w : Externals) (fields : list (string * jsval))
    (database_type : string) (connection_info table_name given : jsval)
    (key : string) (variable : ProcessEnv -> option string) :
  ddl_fields fields database_type connection_info table_name →
  supported database_type →
  (key, variable) ∈ string_fallbacks →
  get connection_info key = Normal given →
  truthy given = false →
  variable (env w) = None ∨ variable (env w) = Some "" →
  callTool w (call_ddl fields) =
    Normal {| content :=
      [text_of "Database connection info is incomplete. Please provide all required fields or set them in .env."] |}.
Proof.
  intros Hfields Hs Hkey Hget Hgiven Hvar.
  unfold call_ddl. rewrite callTool_dispatch by discriminate.
  rewrite bool_decide_eq_true_2 by reflexivity.
  rewrite (handleGetDDLTool_supported w fields _ _ _ Hfields Hs).
  destruct Hfields as (_ & _ & _ & Hci & _).
  destruct (connection_fields w connection_info Hci)
    as (h & p & u & pw & d & Hh & Hp & Hu & Hpw & Hd & ->).
  cbn [mbind completion_bind].
  assert (Hfallback : truthy (or_else given (env_var (variable (env w)))) = false).
  { unfold or_else. rewrite Hgiven. destruct Hvar as [-> | ->]; reflexivity. }
  assert (Hinc : incomplete
            {| host := or_else h (env_var (PGHOST (env w)));
               port := or_else p (JNumber (ToNumber w (PGPORT (env w))));
               user := or_else u (env_var (PGUSER (env w)));
               password := or_else pw (env_var (PGPASSWORD (env w)));
               database := or_else d (env_var (PGDATABASE (env w))) |} = true).
  { unfold incomplete, string_fallbacks in *. cbn [host port user password database].
    repeat (apply elem_of_cons in Hkey as [Hkey | Hkey]; [injection Hkey as -> -> |]);
      [ | | | | by apply elem_of_nil in Hkey].
    - rewrite Hh in Hget. injection Hget as ->. rewrite Hfallback. reflexivity.
    - rewrite Hu in Hget. injection Hget as ->. rewrite Hfallback.
      rewrite !orb_true_r. reflexivity.
    - rewrite Hpw in Hget. injection Hget as ->. rewrite Hfallback.
      rewrite !orb_true_r. reflexivity.
    - rewrite Hd in Hget. injection Hget as ->. rewrite Hfallback.
      rewrite !orb_true_r. reflexivity. }
  rewrite Hinc. reflexivity.
Qed.

Lemma callTool_missing_everywhere_witness :
  callTool Samples.offline
    (call_ddl (Samples.ddl_arguments "postgresql" (JObject [("host", JString "localhost")]))) =
    Normal {| content :=
      [text_of "Database connection info is incomplete. Please provide all required fields or set them in .env."] |}.
Proof.
  apply (callTool_missing_everywhere Samples.offline
           (Samples.ddl_arguments "postgresql" (JObject [("host", JString "localhost")]))
           "postgresql" (JObject [("host", JString "localhost")]) (JString "items")
           JUndefined "password" PGPASSWORD).
  - repeat split; discriminate.
  - left. reflexivity.
  - unfold string_fallbacks. do 2 apply list_elem_of_further. apply list_elem_of_here.
  - reflexivity.
  - reflexivity.
  - left. reflexivity.
Defined.

End ToolsMore.

(** ** Further properties of the two entry points *)
Module DispatchMore.
Import Uuid Server RegistrySpec DispatchSpec.

Lemma present_nonempty (k : string) : k ≠ "" → present (Some k) = true.
Proof. intros Hk. unfold present. destruct (String.eqb_spec k ""); [contradiction | reflexivity]. Qed.

Lemma resolve_stored (st : state) (k : string) (t : transport) :
  k ≠ "" → transports st !! k = Some t → resolve st (Some k) = Some (Channel t).
Proof.
  intros Hk Ht. unfold resolve. rewrite (present_nonempty k Hk).
  apply lookup_transport_stored. exact Ht.
Qed.

(** In the states the server reaches, the names inherited from
    [Object.prototype] are not stored, so they resolve to the inherited member. *)
Lemma resolve_inherited (rt : Runtime) (events : list event) (k : string) :
  k ∈ Object_prototype_names →
  resolve (run rt events MCPServer) (Some k) = Some (Inherited k).
Proof.
  intros Hk.
  pose proof (registry_ok_run rt events _ (registry_ok_init rt)) as Hok.
  assert (Hne : k ≠ "").
  { intros ->. unfold Object_prototype_names in Hk.
    repeat (apply elem_of_cons in Hk as [Hk | Hk]; [discriminate |]).
    by apply elem_of_nil in Hk. }
  unfold resolve. rewrite (present_nonempty k Hne). unfold lookup_transport.
  destruct (transports (run rt events MCPServer) !! k) as [t |] eqn:E.
  - destruct (stored_drawn rt _ Hok k t E) as (i & _ & ->).
    exfalso. eapply UuidSpec.randomUUID_not_inherited. exact Hk.
  - rewrite bool_decide_eq_true_2 by assumption. reflexivity.
Qed.

Lemma handlePostRequest_absent (rt : Runtime) sessionId body sdk st :
  present sessionId = false →
  handlePostRequest rt sessionId body sdk st = handlePostRequest rt None body sdk st.
Proof.
  intros Hp. destruct sessionId as [k |]; [| reflexivity].
  unfold present in Hp. destruct (String.eqb_spec k ""); [subst k; reflexivity | discriminate].
Qed.

(** X9: [handlePostRequest] always answers. It leaves the response to a
    channel, or it writes an error envelope with code -32000 and a fresh id:
    status 400 with the Bad Request message and nothing logged, or status
    500 with "Internal server error." and one [console.error] line holding
    the error. When it writes the envelope the registry is unchanged. *)
Theorem handlePostRequest_always_answers (rt : Runtime) (sessionId : option string)
    (body : jsval) (sdk : Sdk) (st : state) :
  match handlePostRequest rt sessionId body sdk st with
  | (Throw _, _) => False
  | (Normal (ByTransport _), st') => console st' = console st
  | (Normal (Json status envelope), st') =>
      transports st' = transports st
      ∧ ((status = 400%Z
          ∧ envelope = error_envelope "Bad Request: invalid session ID or method."
                         (drawn rt (uuid_draws st))
          ∧ console st' = console st)
         ∨ (status = 500%Z
            ∧ envelope = error_envelope "Internal server error." (drawn rt (uuid_draws st))
            ∧ ∃ e, console st' = (console st ++ [("Error handling MCP request:", e)])%list))
  end.
Proof.
  unfold handlePostRequest, internal_error, bad_request, createErrorResponse, draw_uuid,
    console_error.
  repeat case_match; simplify_eq; cbn;
    try reflexivity; (split; [reflexivity |]);
    first [ left; repeat split; reflexivity
          | right; repeat split; eauto ].
Qed.

(** X10: the registry changes in one case only: a POST without session
    id whose body is an initialize call, for which the SDK connects the new
    transport and sets a session id; the new channel is then stored under the
    identifier just drawn. A transport that the SDK refuses is constructed
    but never stored. *)
Theorem handlePostRequest_registry_change (rt : Runtime) (sessionId : option string)
    (body : jsval) (sdk : Sdk) (st : state) :
  let st' := snd (handlePostRequest rt sessionId body sdk st) in
  (present sessionId = false ∧ isInitializeRequest rt body = true ∧ accepts sdk
   ∧ transports st' = <[drawn rt (uuid_draws st) := constructed st]> (transports st))
  ∨ transports st' = transports st.
Proof.
  cbn zeta.
  destruct (present sessionId) eqn:Ep.
  - right. unfold handlePostRequest, internal_error, bad_request, createErrorResponse,
      draw_uuid, console_error. rewrite Ep.
    repeat case_match; simplify_eq; reflexivity.
  - assert (Hr : resolve st sessionId = None).
    { unfold resolve. destruct sessionId; [rewrite Ep |]; reflexivity. }
    destruct (isInitializeRequest rt body) eqn:Ei.
    + destruct sdk as [[e1 |] [[|] | e2]];
        try (right; unfold handlePostRequest, internal_error, createErrorResponse,
               draw_uuid, console_error; rewrite Hr, Ep, Ei; reflexivity).
      left. split; [reflexivity |]. split; [reflexivity |]. split; [split; reflexivity |].
      rewrite (handlePostRequest_absent rt sessionId body _ st Ep).
      rewrite (post_establish rt st body (mkSdk None (Handled true)) Ei);
        [reflexivity | split; reflexivity].
    + right. unfold handlePostRequest, bad_request, createErrorResponse, draw_uuid.
      rewrite Hr, Ep, Ei. reflexivity.
Qed.

(** X11: a POST with a registered session id is forwarded to the
    session's channel whatever its body, an initialize call included, and
    changes nothing in the server; when the channel throws, the error is
    logged and answered with the 500 envelope. *)
Theorem handlePostRequest_continue (rt : Runtime) (st : state) (k : string) (t : transport)
    (body : jsval) (sdk : Sdk) :
  k ≠ "" →
  transports st !! k = Some t →
  handlePostRequest rt (Some k) body sdk st =
    match on_handle sdk with
    | Handled _ => (Normal (ByTransport t), st)
    | HandleThrows e => internal_error rt e st
    end.
Proof.
  intros Hk Ht. unfold handlePostRequest. rewrite (resolve_stored st k t Hk Ht).
  unfold handleRequest. destruct (on_handle sdk); reflexivity.
Qed.

Lemma handlePostRequest_continue_witness :
  let st := run Samples.steady [POST None Samples.initialize Samples.accepting] MCPServer in
  handlePostRequest Samples.steady (Some (drawn Samples.steady 0)) Samples.initialize
    Samples.accepting st
  = (Normal (ByTransport 0), st).
Proof.
  cbv zeta.
  apply (handlePostRequest_continue Samples.steady
           (run Samples.steady [POST None Samples.initialize Samples.accepting] MCPServer)
           (drawn Samples.steady 0) 0 Samples.initialize Samples.accepting).
  - apply UuidSpec.randomUUID_nonempty.
  - vm_compute. reflexivity.
Defined.

(** X12: an empty session-id header counts as no header: a POST that
    carries one with an initialize call the SDK accepts establishes a
    session, exactly as without the header, and a GET that carries one is a
    Bad Request. *)
Theorem empty_header_is_no_header (rt : Runtime) (body : jsval) (sdk : Sdk) (st : state) :
  isInitializeRequest rt body = true → accepts sdk →
  handlePostRequest rt (Some "") body sdk st =
    (Normal (ByTransport (constructed st)),
     with_transports (<[drawn rt (uuid_draws st) := constructed st]> (transports st))
       (with_uuid_draws (S (uuid_draws st)) (with_constructed (S (constructed st)) st)))
  ∧ handleGetRequest rt (Some "") sdk st =
    (Normal (Json 400 (error_envelope "Bad Request: invalid session ID or method."
                         (drawn rt (uuid_draws st)))),
     with_uuid_draws (S (uuid_draws st)) st).
Proof.
  intros Hinit Hacc. split; [| reflexivity].
  change (handlePostRequest rt (Some "") body sdk st)
    with (handlePostRequest rt None body sdk st).
  apply post_establish; assumption.
Qed.

Lemma empty_header_is_no_header_witness :
  fst (handlePostRequest Samples.steady (Some "") Samples.initialize Samples.accepting MCPServer)
  = Normal (ByTransport 0).
Proof.
  pose proof (empty_header_is_no_header Samples.steady Samples.initialize Samples.accepting
                MCPServer) as H.
  destruct H as [H _].
  - reflexivity.
  - split; reflexivity.
  - rewrite H. reflexivity.
Defined.

(** X13: in every state the server reaches, a session id that is the
    name of a member inherited from [Object.prototype] passes the guard of
    both handlers although no session has it: the GET handler throws the
    [TypeError] of calling a missing [handleRequest], and the POST handler
    logs it and answers 500 instead of the Bad Request envelope. *)
Theorem inherited_name_passes_guard (rt : Runtime) (events : list event) (k : string)
    (body : jsval) (sdk : Sdk) :
  k ∈ Object_prototype_names →
  let st := run rt events MCPServer in
  transports st !! k = None
  ∧ handleGetRequest rt (Some k) sdk st = (Throw not_a_function, st)
  ∧ handlePostRequest rt (Some k) body sdk st = internal_error rt not_a_function st.
Proof.
  intros Hk st. pose proof (resolve_inherited rt events k Hk) as Hr. fold st in Hr.
  split_and!.
  - unfold resolve, lookup_transport in Hr.
    destruct (present (Some k)); [| discriminate].
    destruct (transports st !! k); [discriminate | reflexivity].
  - unfold handleGetRequest. rewrite Hr. reflexivity.
  - unfold handlePostRequest. rewrite Hr. reflexivity.
Qed.

Lemma inherited_name_passes_guard_witness :
  fst (handlePostRequest Samples.steady (Some "toString") Samples.initialize Samples.accepting
         (run Samples.steady [POST None Samples.initialize Samples.accepting] MCPServer))
  = Normal (Json 500 (error_envelope "Internal server error." (drawn Samples.steady 1))).
Proof.
  pose proof (inherited_name_passes_guard Samples.steady
                [POST None Samples.initialize Samples.accepting] "toString"
                Samples.initialize Samples.accepting) as H.
  cbv zeta in H. destruct H as (_ & _ & H).
  - unfold Object_prototype_names. do 6 apply list_elem_of_further. apply list_elem_of_here.
  - rewrite H. reflexivity.
Defined.

Lemma handleGetRequest_frame (rt : Runtime) (sessionId : option string)
    (sdk : Sdk) (st : state) :
  transports (snd (handleGetRequest rt sessionId sdk st)) = transports st
  ∧ constructed (snd (handleGetRequest rt sessionId sdk st)) = constructed st
  ∧ list_tools_handler (snd (handleGetRequest rt sessionId sdk st)) = list_tools_handler st
  ∧ toolInterval (snd (handleGetRequest rt sessionId sdk st)) = toolInterval st.
Proof.
  unfold handleGetRequest.
  destruct (resolve st sessionId) as [found |]; [| repeat split; reflexivity].
  destruct (handleRequest found sdk) as [t | e]; [| repeat split; reflexivity].
  unfold streamMessages.
  set (st1 := forget (sendNotification rt t _ st)).
  destruct (NotifySpec.forget_send_frame rt _ _ st st1 eq_refl)
    as (Ht & Hc & _ & Hl & _ & Hi & _).
  repeat split; assumption.
Qed.

(** X14: [handleGetRequest] never creates anything: whatever the
    request and however the channel reacts, the registry, the number of
    transports constructed and the installed catalog stay as they are. *)
Theorem handleGetRequest_creates_nothing (rt : Runtime) (sessionId : option string)
    (sdk : Sdk) (st : state) :
  let st' := snd (handleGetRequest rt sessionId sdk st) in
  transports st' = transports st
  ∧ constructed st' = constructed st
  ∧ list_tools_handler st' = list_tools_handler st
  ∧ toolInterval st' = toolInterval st.
Proof. cbn zeta. apply handleGetRequest_frame. Qed.

(** X15: a transport is constructed by exactly the POSTs without
    session id whose body is an initialize call or an array holding one,
    whether or not the SDK then accepts; every other POST constructs none. *)
Theorem handlePostRequest_constructs (rt : Runtime) (sessionId : option string)
    (body : jsval) (sdk : Sdk) (st : state) :
  constructed (snd (handlePostRequest rt sessionId body sdk st)) =
    (if negb (present sessionId) && isInitializeRequest rt body
     then S (constructed st) else constructed st)
  ∧ ∀ items, isInitializeRequest rt (JArray items) = true
             ↔ ∃ item, item ∈ items ∧ isInitial rt item = true.
Proof.
  split.
  - unfold handlePostRequest, internal_error, bad_request, createErrorResponse, draw_uuid,
      console_error, resolve.
    destruct sessionId as [k |]; cbn [present];
      repeat case_match; simplify_eq; cbn in *; try reflexivity; try congruence.
  - intros items. cbn [isInitializeRequest]. rewrite existsb_exists.
    split; intros (item & Hin & Hinit); exists item; (split; [| exact Hinit]);
      apply list_elem_of_In; exact Hin.
Qed.

End DispatchMore.

(** ** Further properties of the runs of the server *)
Module RunsMore.
Import Uuid Server RegistrySpec DispatchSpec DispatchMore.

Section WithRuntime.
Context (rt : Runtime).

Lemma is_logging_message text : is_logging (with_jsonrpc (logging_message text) "2.0").
Proof. unfold is_logging. repeat split. eauto. Qed.

Lemma sent_from_logging st t text :
  (∃ k, transports st !! k = Some t) ∨ (∃ s, (t, s) ∈ streams st) →
  sent_from st (t, with_jsonrpc (logging_message text) "2.0").
Proof. intros H. split; [left; apply is_logging_message | exact H]. Qed.

Lemma resolve_Channel st sessionId t :
  resolve st sessionId = Some (Channel t) → ∃ k, transports st !! k = Some t.
Proof.
  unfold resolve, lookup_transport. destruct sessionId as [k |]; [| discriminate].
  destruct (present (Some k)); [| discriminate].
  destruct (transports st !! k) as [t' |] eqn:E.
  - intros [= ->]. eauto.
  - case_bool_decide; discriminate.
Qed.

Lemma handlePostRequest_wire sessionId body sdk st :
  wire (settle (handlePostRequest rt sessionId body sdk st)) = wire st
  ∧ streams (settle (handlePostRequest rt sessionId body sdk st)) = streams st.
Proof.
  unfold handlePostRequest, internal_error, bad_request, createErrorResponse, draw_uuid,
    console_error, settle.
  repeat case_match; simplify_eq; split; reflexivity.
Qed.

(** What one event puts on the wire. *)
Lemma step_sends st ev :
  ∃ new, wire (step rt st ev) = (wire st ++ new)%list ∧ Forall (sent_from st) new.
Proof.
  destruct ev as [sessionId sdk | sessionId body sdk | | i now |]; cbn [step].
  - unfold handleGetRequest.
    destruct (resolve st sessionId) as [found |] eqn:Hr;
      [| exists []; rewrite app_nil_r; split; [reflexivity | constructor]].
    destruct found as [t | name]; cbn [handleRequest];
      [| exists []; rewrite app_nil_r; split; [reflexivity | constructor]].
    destruct (on_handle sdk);
      [| exists []; rewrite app_nil_r; split; [reflexivity | constructor]].
    exists [(t, with_jsonrpc (logging_message "SSE Connection established") "2.0")].
    split.
    + unfold streamMessages. cbn [settle wire with_streams].
      apply NotifySpec.forget_send_wire.
    + constructor; [| constructor]. apply sent_from_logging.
      left. eapply resolve_Channel. exact Hr.
  - exists []. rewrite app_nil_r. split; [apply handlePostRequest_wire | constructor].
  - destruct (toolInterval st) eqn:Ei;
      [| exists []; rewrite app_nil_r; split; [reflexivity | constructor]].
    unfold toolInterval_callback.
    destruct (broadcast_effect rt tool_list_changed (Object_values (setToolSchema st))
                (setToolSchema st)) as (Hw & _).
    cbn zeta in Hw. eexists. split; [exact Hw |].
    apply Forall_forall. intros [t m] Hin.
    apply list_elem_of_fmap in Hin as (t' & [= -> ->] & Hin).
    unfold Object_values in Hin. apply list_elem_of_fmap in Hin as ([k t''] & -> & Hin).
    apply elem_of_map_to_list in Hin. split; cbn [fst snd].
    + right. split; [reflexivity | exact Ei].
    + left. exists k. exact Hin.
  - destruct (streams st !! i) as [[t s] |] eqn:Es;
      [| exists []; rewrite app_nil_r; split; [reflexivity | constructor]].
    assert (Hin : (t, s) ∈ streams st) by (eapply list_elem_of_lookup_2; exact Es).
    unfold interval_fires.
    destruct (interval s);
      [| exists []; rewrite app_nil_r; split; [reflexivity | constructor]].
    unfold interval_callback.
    destruct (S (messageCount s) =? 2)%nat; cbn [wire with_streams].
    + eexists. split.
      * rewrite !NotifySpec.forget_send_wire, <- app_assoc. reflexivity.
      * repeat (constructor; [apply sent_from_logging; eauto |]). constructor.
    + eexists. split.
      * rewrite NotifySpec.forget_send_wire. reflexivity.
      * repeat (constructor; [apply sent_from_logging; eauto |]). constructor.
  - exists []. rewrite app_nil_r. split; [reflexivity | constructor].
Qed.

(** How one event changes the list of streams: not at all, by a new stream
    on a stored channel, or by the state of one stream. *)
Lemma step_streams st ev (t : transport) (s : stream) :
  (t, s) ∈ streams (step rt st ev) →
  (∃ s0, (t, s0) ∈ streams st) ∨ (∃ k, transports st !! k = Some t).
Proof.
  destruct ev as [sessionId sdk | sessionId body sdk | | i now |]; cbn [step].
  - unfold handleGetRequest.
    destruct (resolve st sessionId) as [found |] eqn:Hr; [| eauto].
    destruct found as [t' | name]; cbn [handleRequest]; [| eauto].
    destruct (on_handle sdk); [| eauto].
    unfold streamMessages. cbn [settle streams with_streams].
    destruct (NotifySpec.forget_send_frame rt t'
                (logging_message "SSE Connection established") st _ eq_refl)
      as (_ & _ & _ & _ & Hs & _).
    rewrite Hs. intros Hin. apply elem_of_app in Hin as [Hin | Hin]; [eauto |].
    apply list_elem_of_singleton in Hin as [= -> ->].
    right. eapply resolve_Channel. exact Hr.
  - destruct (handlePostRequest_wire sessionId body sdk st) as [_ ->]. eauto.
  - destruct (toolInterval st); [| eauto].
    unfold toolInterval_callback. intros Hin. left. exists s. revert Hin.
    generalize (Object_values (setToolSchema st)).
    assert (Hs : streams (setToolSchema st) = streams st) by reflexivity.
    revert Hs. generalize (setToolSchema st).
    intros st0 Hs targets. revert st0 Hs.
    induction targets as [| t0 targets IH]; intros st0 Hs; cbn [fold_left].
    + rewrite Hs. auto.
    + apply IH.
      destruct (NotifySpec.forget_send_frame rt t0 tool_list_changed st0 _ eq_refl)
        as (_ & _ & _ & _ & Hs' & _).
      congruence.
  - destruct (streams st !! i) as [[t0 s0] |] eqn:Es; [| eauto].
    assert (Hs : streams (snd (interval_fires rt now t0 s0 st)) = streams st).
    { unfold interval_fires, interval_callback, forget, sendNotification.
      repeat case_match; reflexivity. }
    destruct (interval_fires rt now t0 s0 st) as [s1 st1]. cbn [snd] in Hs.
    cbn [streams with_streams]. rewrite Hs. intros Hin.
    apply list_elem_of_lookup in Hin as [j Hj].
    destruct (decide (i = j)) as [<- | Hne].
    + rewrite list_lookup_insert_eq in Hj by (eapply lookup_lt_Some; exact Es).
      injection Hj as <- <-. left. exists s0. eapply list_elem_of_lookup_2. exact Es.
    + rewrite list_lookup_insert_ne in Hj by assumption.
      left. exists s. eapply list_elem_of_lookup_2. exact Hj.
  - eauto.
Qed.

Lemma sends_ok_step st ev : sends_ok rt st → sends_ok rt (step rt st ev).
Proof.
  intros (Hok & Hstreams & Hwire).
  pose proof (step_registry rt st ev) as Hstep.
  destruct (registry_step_counters rt _ _ Hstep) as [Hc _].
  assert (Hstored : ∀ k t, transports st !! k = Some t → t < constructed (step rt st ev)).
  { intros k t H. pose proof (stored_constructed rt st Hok k t H). lia. }
  split_and!.
  - eapply registry_ok_step; eauto.
  - intros t s Hin. destruct (step_streams st ev t s Hin) as [[s0 H] | [k H]].
    + specialize (Hstreams t s0 H). lia.
    + eauto.
  - destruct (step_sends st ev) as (new & -> & Hnew).
    apply Forall_app. split.
    + eapply Forall_impl; [exact Hwire |]. intros [t m] [Ht Hm]. cbn in *. split; [lia | exact Hm].
    + eapply Forall_impl; [exact Hnew |].
      intros [t m] [Hm Ht]. cbn [fst snd] in *. split.
      * destruct Ht as [[k H] | [s H]]; [eauto |]. specialize (Hstreams t s H). lia.
      * destruct Hm as [H | [H _]]; auto.
Qed.

Lemma sends_ok_run events : sends_ok rt (run rt events MCPServer).
Proof.
  induction events as [| ev events IH] using rev_ind.
  - split_and!; [apply registry_ok_init | |].
    + intros t s H. cbn in H. by apply elem_of_nil in H.
    + constructor.
  - rewrite run_snoc. apply sends_ok_step. exact IH.
Qed.

Lemma sends_ok_wire events :
  Forall (fun tm : transport * JSONRPCNotification =>
            tm.1 < constructed (run rt events MCPServer)
            ∧ (is_logging tm.2 ∨ is_list_changed tm.2))
         (wire (run rt events MCPServer)).
Proof. exact (proj2 (proj2 (sends_ok_run events))). Qed.

End WithRuntime.

(** X16: whatever the server sends, in any run, is a JSON-RPC 2.0
    notification that is either a logging message at level "info" or the
    parameterless "notifications/tools/list_changed", and it is sent to a
    transport that the server constructed itself. *)
Theorem server_sends_only_its_notifications (rt : Runtime) (events : list event)
    (t : transport) (m : JSONRPCNotification) :
  (t, m) ∈ wire (run rt events MCPServer) →
  t < constructed (run rt events MCPServer)
  ∧ note_jsonrpc m = "2.0"
  ∧ ((note_method m = "notifications/message"
      ∧ ∃ text, note_params m = Some {| level := "info"; data := text |})
     ∨ (note_method m = "notifications/tools/list_changed" ∧ note_params m = None)).
Proof.
  intros Hin. pose proof (sends_ok_wire rt events) as Hall.
  rewrite Forall_forall in Hall. destruct (Hall _ Hin) as [Ht Hm]. cbn [fst snd] in *.
  split; [exact Ht |].
  destruct Hm as [(Hj & Hmeth & Hp) | ->]; [split; [exact Hj | left; split; assumption] |].
  split; [reflexivity | right; split; reflexivity].
Qed.

Lemma server_sends_only_its_notifications_witness :
  0 < constructed (run Samples.steady
                     [POST None Samples.initialize Samples.accepting; ToolTimer] MCPServer).
Proof.
  refine (proj1 (server_sends_only_its_notifications Samples.steady
                   [POST None Samples.initialize Samples.accepting; ToolTimer]
                   0 (with_jsonrpc tool_list_changed "2.0") _)).
  vm_compute. apply list_elem_of_here.
Defined.

(** *** Sessions and the registry *)

Lemma run_size (rt : Runtime) (events : list event) (st : state) :
  (size (transports st) ≤ size (transports (run rt events st)))%nat.
Proof.
  revert st. induction events as [| ev events IH]; intros st; [reflexivity |].
  cbn [run fold_left]. fold (run rt events (step rt st ev)).
  etransitivity; [| apply IH].
  destruct (step_registry rt st ev) as [-> _ _ | -> _ _]; [reflexivity |].
  rewrite map_size_insert. destruct (transports st !! _); simpl; lia.
Qed.

Lemma run_size_constructed (rt : Runtime) (events : list event) :
  (size (transports (run rt events MCPServer)) ≤ constructed (run rt events MCPServer))%nat.
Proof.
  induction events as [| ev events IH] using rev_ind; [cbn; rewrite map_size_empty; lia |].
  rewrite run_snoc.
  destruct (step_registry rt (run rt events MCPServer) ev) as [-> Hc _ | -> -> _]; [lia |].
  rewrite map_size_insert. destruct (transports _ !! _); simpl; lia.
Qed.

(** X17: the server never removes a session: an identifier that is
    in the registry stays in it through every later event, shutdown
    included, and the number of sessions never goes down. *)
Theorem sessions_are_never_removed (rt : Runtime) (events : list event) (st : state)
    (k : string) :
  is_Some (transports st !! k) →
  is_Some (transports (run rt events st) !! k)
  ∧ (size (transports st) ≤ size (transports (run rt events st)))%nat.
Proof.
  intros Hk. split; [apply run_keeps_ids; exact Hk | apply run_size].
Qed.

Lemma sessions_are_never_removed_witness :
  is_Some (transports
             (run Samples.steady [Shutdown None; GET (Some "gone") Samples.accepting; ToolTimer]
                (run Samples.steady [POST None Samples.initialize Samples.accepting] MCPServer))
           !! drawn Samples.steady 0).
Proof.
  refine (proj1 (sessions_are_never_removed Samples.steady
                   [Shutdown None; GET (Some "gone") Samples.accepting; ToolTimer]
                   (run Samples.steady [POST None Samples.initialize Samples.accepting] MCPServer)
                   (drawn Samples.steady 0) _)).
  vm_compute. eauto.
Defined.

(** X18: in every state the server reaches, each session id in the
    registry is an identifier that [randomUUID] produced for this server, it
    resolves to its channel, the channel was constructed by the server and is
    stored under no other id, and there are no more sessions than transports
    constructed. *)
Theorem registry_holds_drawn_ids (rt : Runtime) (events : list event) (k : string)
    (t : transport) :
  let st := run rt events MCPServer in
  transports st !! k = Some t →
  (∃ i, i < uuid_draws st ∧ k = drawn rt i)
  ∧ t < constructed st
  ∧ resolve st (Some k) = Some (Channel t)
  ∧ (∀ k', transports st !! k' = Some t → k' = k)
  ∧ (size (transports st) ≤ constructed st)%nat.
Proof.
  intros st Hk.
  pose proof (registry_ok_run rt events _ (registry_ok_init rt)) as Hok. fold st in Hok.
  destruct (stored_drawn rt st Hok k t Hk) as (i & Hi & Heq).
  split_and!.
  - eauto.
  - eapply stored_constructed; eauto.
  - apply resolve_stored; [| exact Hk]. subst k. apply UuidSpec.randomUUID_nonempty.
  - intros k' Hk'. eapply stored_once; eauto.
  - apply run_size_constructed.
Qed.

Lemma registry_holds_drawn_ids_witness :
  resolve (run Samples.steady [POST None Samples.initialize Samples.accepting] MCPServer)
    (Some (drawn Samples.steady 0)) = Some (Channel 0).
Proof.
  pose proof (registry_holds_drawn_ids Samples.steady
                [POST None Samples.initialize Samples.accepting]
                (drawn Samples.steady 0) 0) as H.
  cbv zeta in H. destruct H as (_ & _ & H & _).
  - vm_compute. reflexivity.
  - exact H.
Defined.

(** *** Rejected sends *)

Lemma rejections_app (rt : Runtime) (n : nat) (sent1 sent2 : list (transport * JSONRPCNotification)) :
  rejections rt n (sent1 ++ sent2) =
    (rejections rt n sent1 ++ rejections rt (n + length sent1) sent2)%list.
Proof.
  revert n. induction sent1 as [| [t m] sent1 IH]; intros n; cbn [rejections app length].
  - rewrite Nat.add_0_r. reflexivity.
  - rewrite IH, Nat.add_succ_r.
    destruct (send_rejects rt n t m); reflexivity.
Qed.

(** Sends made in a row and dropped: all reach the wire, the rejected ones
    end as unhandled rejections in order, and nothing is logged. *)
Lemma send_each (rt : Runtime) (sends : list (transport * Notification)) (st : state) :
  let st' := fold_left (fun st tn => forget (sendNotification rt tn.1 tn.2 st)) sends st in
  let sent := map (fun tn : transport * Notification => (tn.1, with_jsonrpc tn.2 "2.0")) sends in
  wire st' = (wire st ++ sent)%list
  ∧ unhandled st' = (unhandled st ++ rejections rt (length (wire st)) sent)%list
  ∧ console st' = console st.
Proof.
  revert st. induction sends as [| [t n] sends IH]; intros st; cbn [fold_left map fst snd].
  - cbn [rejections]. rewrite !app_nil_r. repeat split; reflexivity.
  - destruct (IH (forget (sendNotification rt t n st))) as (Hw & Hu & Hc).
    cbn zeta in *. rewrite Hw, Hu, Hc. clear IH Hw Hu Hc.
    rewrite NotifySpec.forget_send_wire, length_app, <- !app_assoc. cbn [length app rejections].
    rewrite Nat.add_1_r.
    unfold forget, sendNotification. destruct (send_rejects rt (length (wire st)) t _);
      cbn [unhandled console with_wire with_unhandled]; rewrite <- ?app_assoc;
      repeat split; reflexivity.
Qed.

(** X19: the [catch] blocks of [streamMessages] never run. Every send
    of a stream that is rejected ends as an unhandled rejection, in the order
    of the sends, and the stream writes nothing to [console.error]. *)
Theorem stream_rejections_go_unhandled (rt : Runtime) (t : transport)
    (times : list string) (st : state) :
  unhandled (snd (stream_run rt t times st)) =
    (unhandled st
     ++ rejections rt (length (wire st)) (map (fun m => (t, m)) (stream_messages times)))%list
  ∧ console (snd (stream_run rt t times st)) = console st.
Proof.
  destruct times as [| t1 [| t2 rest]].
  - destruct (send_each rt [(t, logging_message "SSE Connection established")] st)
      as (_ & Hu & Hc).
    split; [exact Hu | exact Hc].
  - destruct (send_each rt [(t, logging_message "SSE Connection established");
                            (t, logging_message ("Message 1 at " +:+ t1))] st)
      as (_ & Hu & Hc).
    split; [exact Hu | exact Hc].
  - rewrite NotifySpec.stream_run_two. cbn [snd].
    destruct (send_each rt [(t, logging_message "SSE Connection established");
                            (t, logging_message ("Message 1 at " +:+ t1));
                            (t, logging_message ("Message 2 at " +:+ t2));
                            (t, logging_message "Streaming complete!")] st)
      as (_ & Hu & Hc).
    split; [exact Hu | exact Hc].
Qed.

(** X20: a run of the catalog timer's callback catches nothing either:
    the notifications that are rejected end as unhandled rejections, one per
    rejected channel, and nothing is logged. *)
Theorem catalog_rejections_go_unhandled (rt : Runtime) (st : state) :
  let st' := toolInterval_callback rt st in
  let sent := map (fun t => (t, with_jsonrpc tool_list_changed "2.0")) (Object_values st) in
  wire st' = (wire st ++ sent)%list
  ∧ unhandled st' = (unhandled st ++ rejections rt (length (wire st)) sent)%list
  ∧ console st' = console st.
Proof.
  cbn zeta. unfold toolInterval_callback.
  change (Object_values (setToolSchema st)) with (Object_values st).
  destruct (send_each rt (map (fun t => (t, tool_list_changed)) (Object_values st))
              (setToolSchema st)) as (Hw & Hu & Hc).
  cbn zeta in *. rewrite map_map in Hw, Hu. cbn [fst snd] in Hw, Hu.
  assert (Hfold : ∀ targets st0,
    fold_left (fun st1 tn => forget (sendNotification rt tn.1 tn.2 st1))
      (map (fun t => (t, tool_list_changed)) targets) st0
    = fold_left (fun st1 t => forget (sendNotification rt t tool_list_changed st1)) targets st0).
  { induction targets as [| t0 targets IH]; intros st0; [reflexivity |]. apply IH. }
  rewrite Hfold in Hw, Hu, Hc. split_and!; assumption.
Qed.

(** *** The catalog and its timer *)

Lemma step_toolInterval (rt : Runtime) (st : state) (ev : event) :
  toolInterval st = false → toolInterval (step rt st ev) = false.
Proof.
  intros Hoff.
  destruct ev as [sessionId sdk | sessionId body sdk | | i now |]; cbn [step].
  - destruct (handleGetRequest_frame rt sessionId sdk st) as (_ & _ & _ & Hi).
    destruct (handleGetRequest rt sessionId sdk st) as [[r | e] st'];
      cbn [settle snd toolInterval with_unhandled] in *; congruence.
  - unfold handlePostRequest, internal_error, bad_request, createErrorResponse, draw_uuid,
      console_error, settle.
    repeat case_match; simplify_eq; exact Hoff.
  - rewrite Hoff. exact Hoff.
  - destruct (streams st !! i) as [[t s] |]; [| exact Hoff].
    unfold interval_fires, interval_callback, forget, sendNotification.
    repeat case_match; simplify_eq; exact Hoff.
  - reflexivity.
Qed.

Lemma run_after_cleanup (rt : Runtime) (events : list event) (st : state) :
  toolInterval st = false →
  toolInterval (run rt events st) = false
  ∧ ∃ new, wire (run rt events st) = (wire st ++ new)%list
           ∧ Forall (fun tm : transport * JSONRPCNotification => is_logging tm.2) new.
Proof.
  revert st. induction events as [| ev events IH]; intros st Hoff.
  - split; [exact Hoff |]. exists []. rewrite app_nil_r. split; [reflexivity | constructor].
  - cbn [run fold_left]. fold (run rt events (step rt st ev)).
    destruct (IH (step rt st ev) (step_toolInterval rt st ev Hoff)) as (Hoff' & new & Hw & Hnew).
    split; [exact Hoff' |].
    destruct (step_sends rt st ev) as (first & Hfirst & Hsent).
    exists (first ++ new)%list. split.
    + rewrite Hw, Hfirst, app_assoc. reflexivity.
    + apply Forall_app. split; [| exact Hnew].
      eapply Forall_impl; [exact Hsent |].
      intros [t m] [[Hm | [_ Hon]] _]; [exact Hm | congruence].
Qed.

(** X21: [cleanup] stops the catalog notifications for good, whether
    or not closing the SDK server rejects: nothing re-arms the timer, so
    whatever is sent afterwards is a logging message of some stream. It stops
    nothing else: a stream whose interval is armed sends its next message at
    its next firing after [cleanup], and every session registered before is
    still registered after any later events. *)
Theorem cleanup_stops_catalog_only (rt : Runtime) (events : list event)
    (close_throws : option Error) (st : state) :
  let st0 := snd (cleanup close_throws st) in
  let st' := run rt events st0 in
  toolInterval st' = false
  ∧ (∃ new, wire st' = (wire st ++ new)%list
            ∧ Forall (fun tm : transport * JSONRPCNotification => is_logging tm.2) new)
  ∧ (∀ i t s now, streams st !! i = Some (t, s) → interval s = true →
       ∃ more, wire (step rt st0 (StreamTimer i now)) =
               (wire st ++ (t, periodic (pretty (S (messageCount s))) now) :: more)%list)
  ∧ (∀ k, is_Some (transports st !! k) → is_Some (transports st' !! k)).
Proof.
  cbn zeta.
  destruct (run_after_cleanup rt events (snd (cleanup close_throws st)) eq_refl)
    as (Hoff & Hsent).
  split_and!; [exact Hoff | exact Hsent | |].
  - intros i t s now Es Harmed. cbn [step cleanup snd streams with_toolInterval].
    rewrite Es. unfold interval_fires. rewrite Harmed. unfold interval_callback.
    destruct (S (messageCount s) =? 2)%nat; cbn [wire with_streams].
    + eexists. rewrite !NotifySpec.forget_send_wire, <- app_assoc. reflexivity.
    + exists []. rewrite NotifySpec.forget_send_wire. reflexivity.
  - intros k Hk. apply run_keeps_ids. exact Hk.
Qed.

Lemma step_list_tools (rt : Runtime) (st : state) (ev : event) :
  list_tools_handler st = Some Tools.listTools →
  list_tools_handler (step rt st ev) = Some Tools.listTools.
Proof.
  intros Hl.
  destruct ev as [sessionId sdk | sessionId body sdk | | i now |]; cbn [step].
  - destruct (handleGetRequest_frame rt sessionId sdk st) as (_ & _ & Hl' & _).
    destruct (handleGetRequest rt sessionId sdk st) as [[r | e] st'];
      cbn [settle snd list_tools_handler with_unhandled] in *; congruence.
  - unfold handlePostRequest, internal_error, bad_request, createErrorResponse, draw_uuid,
      console_error, settle.
    repeat case_match; simplify_eq; exact Hl.
  - destruct (toolInterval st); [| exact Hl].
    unfold toolInterval_callback.
    destruct (broadcast_effect rt tool_list_changed (Object_values (setToolSchema st))
                (setToolSchema st)) as (_ & _ & _ & _ & Hl' & _).
    cbn zeta in Hl'. rewrite Hl'. reflexivity.
  - destruct (streams st !! i) as [[t s] |]; [| exact Hl].
    unfold interval_fires, interval_callback, forget, sendNotification.
    repeat case_match; simplify_eq; exact Hl.
  - exact Hl.
Qed.

(** X22: the catalog never changes: in every state the server
    reaches, before and after any number of refreshes, the list-tools handler
    answers with the one descriptor [get_database_table_ddl]; and a call of
    any advertised tool with an arguments object is handed to the DDL tool. *)
Theorem catalog_is_constant (rt : Runtime) (events : list event) (w : Tools.Externals)
    (fields : list (string * jsval)) :
  list_tools_handler (run rt events MCPServer) = Some [Tools.getDDLTool]
  ∧ ∀ tool, tool ∈ [Tools.getDDLTool] →
      Tools.callTool w (Tools.mkCall (Tools.name tool) (Some fields))
      = Tools.handleGetDDLTool w (JObject fields).
Proof.
  split.
  - induction events as [| ev events IH] using rev_ind; [reflexivity |].
    rewrite run_snoc. apply step_list_tools. exact IH.
  - intros tool Hin. apply list_elem_of_singleton in Hin as ->.
    rewrite ToolsSpec.callTool_dispatch by discriminate.
    rewrite bool_decide_eq_true_2 by reflexivity. reflexivity.
Qed.

(** *** A stream in the event loop *)

Section Timers.
Context (rt : Runtime).

Lemma timer_fires_on st i t s now :
  streams st !! i = Some (t, s) →
  wire (step rt st (StreamTimer i now)) = wire (snd (interval_fires rt now t s st))
  ∧ streams (step rt st (StreamTimer i now)) !! i = Some (t, fst (interval_fires rt now t s st)).
Proof.
  intros Es. cbn [step]. rewrite Es.
  assert (Hs : streams (snd (interval_fires rt now t s st)) = streams st).
  { unfold interval_fires, interval_callback, forget, sendNotification.
    repeat case_match; reflexivity. }
  destruct (interval_fires rt now t s st) as [s1 st1]. cbn [fst snd] in *.
  split; [reflexivity |]. cbn [streams with_streams]. rewrite Hs.
  apply list_lookup_insert_eq. eapply lookup_lt_Some. exact Es.
Qed.

Lemma timers_on_cleared st i t s times :
  streams st !! i = Some (t, s) → interval s = false →
  wire (run rt (map (StreamTimer i) times) st) = wire st.
Proof.
  revert st. induction times as [| now times IH]; intros st Es Hoff; [reflexivity |].
  cbn [map run fold_left]. fold (run rt (map (StreamTimer i) times) (step rt st (StreamTimer i now))).
  destruct (timer_fires_on st i t s now Es) as [Hw Hs].
  unfold interval_fires in Hw, Hs. rewrite Hoff in Hw, Hs. cbn [fst snd] in Hw, Hs.
  rewrite (IH _ Hs Hoff). exact Hw.
Qed.

End Timers.

(** X23: in the event loop, a GET on a registered session whose
    channel handles it, followed by the firings of the interval it armed,
    puts on the wire exactly the messages of one stream on that session's
    channel: established, Message 1, Message 2, complete, and nothing for
    any later firing. *)
Theorem get_then_timers (rt : Runtime) (st : state) (k : string) (t : transport)
    (sdk : Sdk) (handled : bool) (times : list string) :
  k ≠ "" →
  transports st !! k = Some t →
  on_handle sdk = Handled handled →
  let i := length (streams st) in
  wire (run rt (GET (Some k) sdk :: map (StreamTimer i) times) st) =
    (wire st ++ map (fun m => (t, m)) (stream_messages times))%list.
Proof.
  intros Hk Ht Hsdk i.
  cbn [run fold_left]. fold (run rt (map (StreamTimer i) times) (step rt st (GET (Some k) sdk))).
  set (st1 := step rt st (GET (Some k) sdk)).
  assert (Hget : wire st1 = (wire st ++ [(t, established)])%list
                 ∧ streams st1 !! i = Some (t, mkStream 0 true)).
  { subst st1. cbn [step]. unfold handleGetRequest.
    rewrite (resolve_stored st k t Hk Ht). cbn [handleRequest]. rewrite Hsdk.
    unfold streamMessages. cbn [settle wire streams with_streams].
    destruct (NotifySpec.forget_send_frame rt t
                (logging_message "SSE Connection established") st _ eq_refl)
      as (_ & _ & _ & _ & Hs & _).
    rewrite Hs. split; [apply NotifySpec.forget_send_wire |].
    subst i. rewrite lookup_app_r by reflexivity. rewrite Nat.sub_diag. reflexivity. }
  destruct Hget as [Hw1 Hs1]. clearbody st1.
  destruct times as [| t1 [| t2 rest]].
  - exact Hw1.
  - cbn [map run fold_left].
    destruct (timer_fires_on rt st1 i t _ t1 Hs1) as [Hw _].
    rewrite Hw. unfold interval_fires. cbn [interval].
    rewrite NotifySpec.callback_first. cbn [snd].
    rewrite NotifySpec.forget_send_wire, Hw1, <- app_assoc. reflexivity.
  - cbn [map run fold_left].
    fold (run rt (map (StreamTimer i) rest)
            (step rt (step rt st1 (StreamTimer i t1)) (StreamTimer i t2))).
    destruct (timer_fires_on rt st1 i t _ t1 Hs1) as [Hw2 Hs2].
    unfold interval_fires in Hw2, Hs2. cbn [interval] in Hw2, Hs2.
    rewrite NotifySpec.callback_first in Hw2, Hs2. cbn [fst snd] in Hw2, Hs2.
    set (st2 := step rt st1 (StreamTimer i t1)) in *.
    destruct (timer_fires_on rt st2 i t _ t2 Hs2) as [Hw3 Hs3].
    unfold interval_fires in Hw3, Hs3. cbn [interval] in Hw3, Hs3.
    rewrite NotifySpec.callback_second in Hw3, Hs3. cbn [fst snd] in Hw3, Hs3.
    rewrite (timers_on_cleared rt _ i t _ rest Hs3 eq_refl).
    rewrite Hw3, !NotifySpec.forget_send_wire, Hw2, NotifySpec.forget_send_wire, Hw1.
    rewrite <- !app_assoc. reflexivity.
Qed.

Lemma get_then_timers_witness :
  let st := run Samples.flaky [POST None Samples.initialize Samples.accepting] MCPServer in
  wire (run Samples.flaky
          (GET (Some (drawn Samples.flaky 0)) Samples.accepting
           :: map (StreamTimer 0) ["09:00:01"; "09:00:02"; "09:00:03"]) st)
  = [(0, established); (0, periodic "1" "09:00:01"); (0, periodic "2" "09:00:02");
     (0, complete)].
Proof.
  cbv zeta.
  refine (get_then_timers Samples.flaky
            (run Samples.flaky [POST None Samples.initialize Samples.accepting] MCPServer)
            (drawn Samples.flaky 0) 0 Samples.accepting true
            ["09:00:01"; "09:00:02"; "09:00:03"] _ _ _).
  - apply UuidSpec.randomUUID_nonempty.
  - vm_compute. reflexivity.
  - reflexivity.
Defined.

End RunsMore.
